(** * SafeChoice: the product-safety matching engine of [app_streamlit.py]

    A shallow embedding of [check_product_safety] and of the record-building
    part of [get_product_from_openfoodfacts], with the Python string
    primitives they rely on ([str.lower], [str.strip], [str.split] and the
    [in] operator on strings). *)

From Stdlib Require Import Ascii String Floats.PrimFloat.
From stdpp Require Import gmap strings list fin_maps.

Local Open Scope string_scope.

(** ** Python strings

    Text is a [string] whose characters are the code points below 256; on
    that range [str.lower] and [str.isspace] act character by character. *)

Module PyStr.

(** [c.isspace()]: tab, line feed, vertical tab, form feed, carriage return,
    the four separators 28..31, space, NEL (133) and the no-break space (160). *)
Definition isspace (c : ascii) : bool :=
  let n := nat_of_ascii c in
  ((9 <=? n) && (n <=? 13) || (28 <=? n) && (n <=? 32)
   || (n =? 133) || (n =? 160))%nat.

(** [c.lower()]: A..Z, and the capital letters 192..222 of Latin-1 except the
    multiplication sign 215, move up by 32. *)
Definition lower_char (c : ascii) : ascii :=
  let n := nat_of_ascii c in
  if ((65 <=? n) && (n <=? 90)
      || (192 <=? n) && (n <=? 222) && negb (n =? 215))%nat
  then ascii_of_nat (n + 32) else c.

(** [s.lower()] *)
Fixpoint lower (s : string) : string :=
  match s with
  | EmptyString => EmptyString
  | String c r => String (lower_char c) (lower r)
  end.

(** [s.lstrip()] *)
Fixpoint lstrip (s : string) : string :=
  match s with
  | EmptyString => EmptyString
  | String c r => if isspace c then lstrip r else s
  end.

(** [s.rstrip()] *)
Fixpoint rstrip (s : string) : string :=
  match s with
  | EmptyString => EmptyString
  | String c r =>
      match rstrip r with
      | EmptyString => if isspace c then EmptyString else String c EmptyString
      | r' => String c r'
      end
  end.

(** [s.strip()] *)
Definition strip (s : string) : string := rstrip (lstrip s).

(** [s.split(sep)] for a one-character separator: the pieces between the
    separators, in order; always at least one piece. *)
Fixpoint split (sep : ascii) (s : string) : list string :=
  match s with
  | EmptyString => [EmptyString]
  | String c r =>
      if Ascii.eqb c sep then EmptyString :: split sep r
      else match split sep r with
           | p :: ps => String c p :: ps
           | [] => [String c EmptyString]
           end
  end.

(** [s.startswith(p)] *)
Fixpoint startswith (p s : string) : bool :=
  match p, s with
  | EmptyString, _ => true
  | String _ _, EmptyString => false
  | String a p', String b s' => Ascii.eqb a b && startswith p' s'
  end.

(** [needle in hay]: the needle starts at some position of the haystack. *)
Fixpoint contains (needle hay : string) : bool :=
  startswith needle hay
  || match hay with
     | EmptyString => false
     | String _ r => contains needle r
     end.

(** [bool(s)]: a string is truthy when it is not empty. *)
Definition truthy (s : string) : bool :=
  match s with EmptyString => false | String _ _ => true end.

End PyStr.

(** ** Python values

    The values a decoded JSON document and a Python dictionary can hold. *)

#[local] Set Warnings "-register-all".

Inductive pyval :=
  | VNone
  | VBool (b : bool)
  | VInt (n : Z)
  | VFloat (f : float)
  | VStr (s : string)
  | VList (l : list pyval)
  | VDict (d : gmap string pyval).

Abbreviation dict := (gmap string pyval).

(** [bool(d)] for a dictionary: true when it has at least one key. *)
Definition dict_truthy (d : dict) : bool :=
  match map_to_list d with [] => false | _ :: _ => true end.

(** [bool(v)] *)
Definition truthy (v : pyval) : bool :=
  match v with
  | VNone => false
  | VBool b => b
  | VInt n => negb (n =? 0)%Z
  | VFloat f => negb (PrimFloat.eqb f 0%float)
  | VStr s => PyStr.truthy s
  | VList l => match l with [] => false | _ :: _ => true end
  | VDict d => dict_truthy d
  end.

(** [type(v).__name__] *)
Definition type_name (v : pyval) : string :=
  match v with
  | VNone => "NoneType"
  | VBool _ => "bool"
  | VInt _ => "int"
  | VFloat _ => "float"
  | VStr _ => "str"
  | VList _ => "list"
  | VDict _ => "dict"
  end.

(** [d.get(key, dflt)] *)
Definition dict_get (d : dict) (key : string) (dflt : pyval) : pyval :=
  default dflt (d !! key).

(** [a or b] *)
Definition py_or (a b : pyval) : pyval := if truthy a then a else b.

(** ** Exceptions *)

Inductive exn :=
  | AttributeError (type_name attr : string)
  | KeyError (key : string)
  | TypeError (msg : string)
  | RequestException (msg : string)
  | ValueError (msg : string).

(** [str(e)] *)
Definition exn_str (e : exn) : string :=
  match e with
  | AttributeError ty attr =>
      "'" ++ ty ++ "' object has no attribute '" ++ attr ++ "'"
  | KeyError key => "'" ++ key ++ "'"
  | TypeError msg => msg
  | RequestException msg => msg
  | ValueError msg => msg
  end.

(** ** The data model *)

(** A row of the [users] table.  The columns [allergies] and
    [health_conditions] are declared without [nullable=False]: they hold a
    string or NULL ([None]). *)
Record User := {
  id : Z;
  username : string;
  name : string;
  mobile : string;
  age : Z;
  allergies : option string;
  health_conditions : option string
}.

(** The dictionary [check_product_safety] returns. *)
Record verdict := {
  is_safe : bool;
  conflicting_allergies : list string;
  conflicting_conditions : list string;
  product_name : pyval;
  product_brand : pyval;
  product_ingredients : pyval
}.

(** ** State and effects

    A call of [check_product_safety(product_info, user)] can reach the two
    objects its parameters are bound to ([None] is Python's [None]) and the
    Streamlit page, on which [st.error] shows a message. *)

Record world := {
  product_info : option dict;
  user : option User;
  page : list string   (* the messages shown by [st.error], oldest first *)
}.

Inductive result (A : Type) :=
  | Returned (a : A)
  | Raised (e : exn).
Arguments Returned {A} a.
Arguments Raised {A} e.

Definition M (A : Type) : Type := world → result A * world.

#[export] Instance M_ret : MRet M := λ A a w, (Returned a, w).
#[export] Instance M_bind : MBind M := λ A B k m w,
  match m w with
  | (Returned a, w') => k a w'
  | (Raised e, w') => (Raised e, w')
  end.

Definition raise {A} (e : exn) : M A := λ w, (Raised e, w).

(** [try: body except Exception as e: handler(e)] *)
Definition try_except {A} (body : M A) (handler : exn → M A) : M A := λ w,
  match body w with
  | (Returned a, w') => (Returned a, w')
  | (Raised e, w') => handler e w'
  end.

(** The object bound to the parameter [product_info]. *)
Definition the_product_info : M (option dict) := λ w, (Returned (product_info w), w).

(** The object bound to the parameter [user]. *)
Definition the_user : M (option User) := λ w, (Returned (user w), w).

(** [st.error(msg)] *)
Definition st_error (msg : string) : M unit := λ w,
  (Returned tt,
   {| product_info := product_info w; user := user w; page := page w ++ [msg] |}).

(** ** The safety matching engine *)

(** [[x.strip().lower() for x in field.split(",") if x.strip()]]; a NULL
    field has no [split]. *)
Definition tokens (field : string) : list string :=
  (λ x, PyStr.lower (PyStr.strip x))
    <$> filter (λ x, PyStr.truthy (PyStr.strip x)) (PyStr.split "," field).

Definition user_tokens (field : option string) : M (list string) :=
  match field with
  | Some s => mret (tokens s)
  | None => raise (AttributeError "NoneType" "split")
  end.

(** [v.lower()] *)
Definition py_lower (v : pyval) : M string :=
  match v with
  | VStr s => mret (PyStr.lower s)
  | _ => raise (AttributeError (type_name v) "lower")
  end.

(** [[t for t in toks if t and t in hay]] *)
Definition conflicts (toks : list string) (hay : string) : list string :=
  filter (λ t, PyStr.truthy t && PyStr.contains t hay) toks.

(** [not (a or b)] on two lists: [a or b] is [a] when [a] is not empty. *)
Definition not_or (a b : list string) : bool :=
  match (match a with [] => b | _ :: _ => a end) with
  | [] => true
  | _ :: _ => false
  end.

Definition check_product_safety : M (option verdict) :=
  product_info ← the_product_info;
  user ← the_user;
  match product_info with
  | Some d =>
      if dict_truthy d then
        match user with
        | Some u =>
            try_except
              (user_allergies ← user_tokens (allergies u);
               user_conditions ← user_tokens (health_conditions u);
               ingredients_lower ← py_lower (dict_get d "ingredients" (VStr ""));
               let conflicting_allergies := conflicts user_allergies ingredients_lower in
               let conflicting_conditions := conflicts user_conditions ingredients_lower in
               mret (Some {|
                 is_safe := not_or conflicting_allergies conflicting_conditions;
                 conflicting_allergies := conflicting_allergies;
                 conflicting_conditions := conflicting_conditions;
                 product_name := dict_get d "title" (VStr "Unknown");
                 product_brand := dict_get d "brand" (VStr "Unknown");
                 product_ingredients := dict_get d "ingredients" (VStr "")
               |}))
              (λ e, st_error ("Error checking product safety: " ++ exn_str e);;
                    mret None)
        | None => st_error "User information is required";; mret None
        end
      else st_error "Product information is required";; mret None
  | None => st_error "Product information is required";; mret None
  end.

(** ** The product lookup *)

(** [v.get(key, dflt)]: only a dictionary has [get]. *)
Definition py_get (v : pyval) (key : string) (dflt : pyval) : M pyval :=
  match v with
  | VDict d => mret (dict_get d key dflt)
  | _ => raise (AttributeError (type_name v) "get")
  end.

(** [v[key]] for a string key *)
Definition py_getitem (v : pyval) (key : string) : M pyval :=
  match v with
  | VDict d =>
      match d !! key with
      | Some x => mret x
      | None => raise (KeyError key)
      end
  | VList _ => raise (TypeError "list indices must be integers or slices, not str")
  | VStr _ => raise (TypeError "string indices must be integers, not 'str'")
  | _ => raise (TypeError ("'" ++ type_name v ++ "' object is not subscriptable"))
  end.

(** The dictionary literal of lines 113-120, for the decoded [product]. *)
Definition product_record (barcode : string) (product : pyval) : M dict :=
  title ← py_get product "product_name" (VStr "No product title found");
  brand ← py_get product "brands" (VStr "Unknown brand");
  description ← py_get product "generic_name" (VStr "No description available");
  ingredients_text ← py_get product "ingredients_text" (VStr "");
  category ← py_get product "categories" (VStr "Unknown category");
  mret (<["barcode" := VStr barcode]>
        (<["title" := title]>
        (<["brand" := brand]>
        (<["description" := description]>
        (<["ingredients" := py_or ingredients_text (VStr "")]>
        (<["category" := category]> ∅)))))).

Section Lookup.

(** [requests.get(url, timeout=10)], [raise_for_status()] and [.json()]: the
    decoded body, or a [RequestException] or [ValueError]. *)
Variable http_get_json : string → M pyval.

Definition get_product_from_openfoodfacts (barcode : string) : M (option dict) :=
  if negb (PyStr.truthy barcode) then
    st_error "Barcode cannot be empty";; mret None
  else
    try_except
      (data ← http_get_json
                ("https://world.openfoodfacts.org/api/v0/product/" ++ barcode ++ ".json");
       found ← py_get data "product" VNone;
       if negb (truthy found) then mret None
       else
         product ← py_getitem data "product";
         r ← product_record barcode product;
         mret (Some r))
      (λ e,
        match e with
        | RequestException _ =>
            st_error ("Failed to fetch product data: " ++ exn_str e);; mret None
        | ValueError _ =>
            st_error ("Invalid product data received: " ++ exn_str e);; mret None
        | _ => raise e
        end).

End Lookup.

(** ** Vocabulary of the statements *)

(** [needle] occurs in [hay] as a contiguous run of characters. *)
Definition substring (needle hay : string) : Prop :=
  ∃ pre post, hay = pre ++ needle ++ post.

(** Every character of [s] satisfies [P]. *)
Fixpoint all_chars (P : ascii → bool) (s : string) : bool :=
  match s with
  | EmptyString => true
  | String c r => P c && all_chars P r
  end.

(** A field with nothing but white space and commas. *)
Definition blank (s : string) : bool :=
  all_chars (λ c, PyStr.isspace c || Ascii.eqb c ",") s.

(** The verdict of lines 157-174 for a product dictionary [d], the user's two
    fields [a] and [h], and the ingredient text [s]. *)
Definition verdict_for (d : dict) (a h s : string) : verdict :=
  let ca := conflicts (tokens a) (PyStr.lower s) in
  let cc := conflicts (tokens h) (PyStr.lower s) in
  {| is_safe := not_or ca cc;
     conflicting_allergies := ca;
     conflicting_conditions := cc;
     product_name := dict_get d "title" (VStr "Unknown");
     product_brand := dict_get d "brand" (VStr "Unknown");
     product_ingredients := dict_get d "ingredients" (VStr "") |}.

(** A user row with the given [allergies] and [health_conditions]. *)
Definition mk_user (a h : option string) : User :=
  {| id := 1; username := "asha"; name := "Asha"; mobile := "5550100"; age := 30;
     allergies := a; health_conditions := h |}.

(** A product dictionary as the lookup builds it. *)
Definition mk_product (title ingredients : string) : dict :=
  <["barcode" := VStr "3017620422003"]>
  (<["title" := VStr title]>
  (<["brand" := VStr "Acme"]>
  (<["description" := VStr "No description available"]>
  (<["ingredients" := VStr ingredients]>
  (<["category" := VStr "Unknown category"]> ∅))))).

Definition mk_world (p : option dict) (u : option User) : world :=
  {| product_info := p; user := u; page := [] |}.

(** Sample calls. *)
Definition eggplant_call : world :=
  mk_world (Some (mk_product "Aubergine dip" "eggplant extract"))
           (Some (mk_user (Some "egg") (Some ""))).

Definition cookies_call : world :=
  mk_world (Some (mk_product "Cookies" "Wheat flour, peanut oil, sugar"))
           (Some (mk_user (Some " Peanut, Gluten") (Some "diabetes"))).

Definition cake_call : world :=
  mk_world (Some (mk_product "Cake" "Egg, sugar, MILK powder"))
           (Some (mk_user (Some "milk, egg") (Some ""))).

Definition empty_product_call : world :=
  mk_world (Some ∅) (Some (mk_user (Some "egg") (Some ""))).

Definition null_allergies_call : world :=
  mk_world (Some (mk_product "Aubergine dip" "eggplant extract"))
           (Some (mk_user None (Some ""))).

(** The field [k'] of the record [r] is the field [k] of [product] when
    [product] has it, and the placeholder [p] otherwise. *)
Definition filled (product r : dict) (k k' : string) (p : pyval) : Prop :=
  match product !! k with
  | Some x => r !! k' = Some x
  | None => r !! k' = Some p
  end.

(** The address the lookup asks for. *)
Definition product_url (barcode : string) : string :=
  "https://world.openfoodfacts.org/api/v0/product/" ++ barcode ++ ".json".

(** A server that answers every request with the document [data]. *)
Definition http_reply (data : pyval) : string → M pyval := λ _, mret data.

(** A document whose product has a null name and no ingredient. *)
Definition sparse_product : dict :=
  <["product_name" := VNone]> (<["ingredients_text" := VList []]> ∅).

Definition sparse_reply : pyval :=
  VDict (<["status" := VInt 1]> (<["product" := VDict sparse_product]> ∅)).

(** The world [w] once [st.error(msg)] has run. *)
Definition shown (msg : string) (w : world) : world :=
  {| product_info := product_info w; user := user w; page := page w ++ [msg] |}.

(** ** The profile pages *)

Definition SUGGESTED_ALLERGIES : list string :=
  [ "Peanuts"; "Dust"; "Pollen"; "Gluten"; "Dairy"; "Eggs"; "Fish"; "Shellfish";
    "Soy"; "Wheat"; "Tree Nuts"; "Corn"; "Sesame"; "Mustard"; "Sulfites";
    "Nightshades"; "Legumes"; "Citrus"; "Bananas"; "Chocolate"; "Alcohol";
    "Histamine"; "Salicylates"; "Mushrooms"; "Lactose" ].

Definition SUGGESTED_HEALTH_CONDITIONS : list string :=
  [ "Diabetes"; "Hypertension"; "Asthma"; "Thyroid"; "Celiac Disease";
    "Kidney Disease"; "Gout"; "Lactose Intolerance"; "IBS"; "Histamine Intolerance";
    "Alpha-gal Syndrome"; "Hypersensitivity"; "Oral Allergy Syndrome";
    "Shellfish Allergy"; "Fish Allergy"; "Gluten Sensitivity"; "Insulin Resistance";
    "Autoimmune Diseases"; "Heart Disease"; "High Cholesterol" ].

(** [sep.join(items)] *)
Definition str_join (sep : string) (items : list string) : string :=
  String.concat sep items.

(** [[x.strip() for x in field.split(",") if x.strip()]]: the entries the
    profile and update pages read back from a stored field (lines 332, 341,
    382 and 383). *)
Definition shown_tokens (field : string) : list string :=
  PyStr.strip <$> filter (λ x, PyStr.truthy (PyStr.strip x)) (PyStr.split "," field).

Section ProfileForm.

(** [st.checkbox(label, value=..., key=f"{key}_{i}")]: the state of the tick
    box, given the key prefix, the index, the label and the default. *)
Variable checkbox : string → nat → string → bool → bool.

(** The loop over the suggestions, from index [i] on:
    [is_checked = s in current]; the entry is selected when its box is
    ticked. *)
Fixpoint ticked_from (key : string) (i : nat) (current suggested : list string)
  : list string :=
  match suggested with
  | [] => []
  | s :: rest =>
      let is_checked := bool_decide (s ∈ current) in
      if checkbox key i s is_checked
      then s :: ticked_from key (S i) current rest
      else ticked_from key (S i) current rest
  end.

(** [if custom: selected.append(custom)], then [", ".join(selected)]. *)
Definition saved_field (selected : list string) (custom : string) : string :=
  str_join ", " (if PyStr.truthy custom then selected ++ [custom] else selected).

(** The Save Changes button of the update page (lines 382-421), up to the
    commit: the user row with its two fields assigned.  A NULL field has no
    [split]. *)
Definition save_changes (u : User) (custom_allergy custom_health : string)
  : result User :=
  match allergies u, health_conditions u with
  | Some a, Some h =>
      let current_allergies := shown_tokens a in
      let current_health_conditions := shown_tokens h in
      let selected_allergies :=
        ticked_from "update_allergy" 0 current_allergies SUGGESTED_ALLERGIES in
      let selected_health_conditions :=
        ticked_from "update_health_condition" 0 current_health_conditions
                    SUGGESTED_HEALTH_CONDITIONS in
      Returned {| id := id u; username := username u; name := name u;
                  mobile := mobile u; age := age u;
                  allergies := Some (saved_field selected_allergies custom_allergy);
                  health_conditions :=
                    Some (saved_field selected_health_conditions custom_health) |}
  | _, _ => Raised (AttributeError "NoneType" "split")
  end.

End ProfileForm.

(** ** The session *)

(** [st.session_state] *)
Record session_state := {
  logged_in : bool;
  user_mobile : option string;
  current_page : string
}.

(** Lines 179-184: the state of a new session. *)
Definition fresh_session : session_state :=
  {| logged_in := false; user_mobile := None; current_page := "login" |}.

Definition navigate_to (page : string) (s : session_state) : session_state :=
  {| logged_in := logged_in s; user_mobile := user_mobile s; current_page := page |}.

Definition logout (s : session_state) : session_state :=
  {| logged_in := false; user_mobile := None; current_page := "login" |}.

(** What a page shows with [st.error], [st.success] and [st.warning]. *)
Inductive notice :=
  | Error (msg : string)
  | Success (msg : string)
  | Warning (msg : string).

(** [db_session.query(User).filter_by(mobile=m).first()] on the rows [db]. *)
Definition query_by_mobile (db : list User) (m : string) : option User :=
  snd <$> list_find (λ u, mobile u = m) db.

(** The Login button (lines 215-227). *)
Definition login_click (db : list User) (number : string) (s : session_state)
  : session_state * list notice :=
  if negb (PyStr.truthy number) then (s, [Error "Mobile number is required."])
  else
    match query_by_mobile db number with
    | Some u =>
        ({| logged_in := true; user_mobile := Some (mobile u);
            current_page := "profile" |},
         [Success "Logged in successfully!"])
    | None => (s, [Error "User not found. Please register first."])
    end.

(** The head of the profile, update and scan pages (lines 307-315, 364-372
    and 438-446): the session after it, what it shows, and the user row the
    rest of the page works with, if any. *)
Definition page_guard (db : list User) (warning : string) (s : session_state)
  : session_state * list notice * option User :=
  if negb (logged_in s) then (navigate_to "login" s, [Warning warning], None)
  else
    match user_mobile s ≫= query_by_mobile db with
    | Some u => (s, [], Some u)
    | None => (logout s, [Error "User not found."], None)
    end.

(** One run of the script that changes the session.  The rows [db] may differ
    from run to run. *)
Inductive step : session_state → session_state → Prop :=
  | step_sidebar s page :
      page ∈ (if logged_in s then ["profile"; "scan"; "update_profile"]
              else ["login"; "register"]) →
      step s (navigate_to page s)
  | step_sidebar_logout s :
      logged_in s = true → step s (logout s)
  | step_login db number s :
      current_page s = "login" → step s (login_click db number s).1
  | step_goto_register s :
      current_page s = "login" → step s (navigate_to "register" s)
  | step_registered s :
      current_page s = "register" → step s (navigate_to "login" s)
  | step_guard db warning s :
      current_page s ∈ ["profile"; "update_profile"; "scan"] →
      step s (page_guard db warning s).1.1
  | step_profile_button db warning s u page :
      current_page s = "profile" →
      page_guard db warning s = (s, [], Some u) →
      page ∈ ["scan"; "update_profile"] →
      step s {| logged_in := logged_in s; user_mobile := user_mobile s;
                current_page := page |}
  | step_back_to_profile db warning s u :
      current_page s = "update_profile" →
      page_guard db warning s = (s, [], Some u) →
      step s (navigate_to "profile" s).

(** ** The barcode reader *)

(** A symbol found by [pyzbar.decode]. *)
Record Decoded := {
  data : list Byte.byte;
  type : string
}.

Section Barcode.

(** [bytes.decode('utf-8')]; [None] stands for [UnicodeDecodeError]. *)
Variable utf8 : list Byte.byte → option string.

(** The symbols of [np.array], [cv2.cvtColor] and [decode] on the image, or
    the exception one of them raises. *)
Variable scan : M (list Decoded).

Definition read_barcode : M (option (list (string * string))) :=
  try_except
    (barcodes ← scan;
     match barcodes with
     | [] => mret None
     | _ :: _ =>
         mret (Some (omap (λ barcode,
                             barcode_data ← utf8 (data barcode);
                             Some (barcode_data, type barcode))
                          barcodes))
     end)
    (λ e, st_error ("Error processing barcode: " ++ exn_str e);; mret None).

End Barcode.

(** Lines 463-467: the barcode the scan page goes on with. *)
Definition first_barcode (barcode_results : option (list (string * string)))
  : option (string * string) :=
  match barcode_results with
  | Some (b :: _) => Some b
  | _ => None
  end.

(** The call [check_product_safety(product_info, user)] on a page [pg]. *)
Definition call (d : dict) (u : User) (pg : list string) : world :=
  {| product_info := Some d; user := Some u; page := pg |}.

(** An entry that reads back as itself: trimmed, not empty, without a comma. *)
Definition clean (x : string) : bool :=
  PyStr.truthy x && String.eqb (PyStr.strip x) x
  && all_chars (λ c, negb (Ascii.eqb c ",")) x.

(** Sample forms: every box left at its default, and the box "Eggs" ticked
    besides. *)
Definition untouched_form : string → nat → string → bool → bool :=
  λ _ _ _ value, value.

Definition eggs_form : string → nat → string → bool → bool :=
  λ _ _ label value, String.eqb label "Eggs" || value.

(** A sample table with one row, and the session after that user has logged
    in. *)
Definition one_user_db : list User := [mk_user (Some "egg") (Some "")].

Definition logged_in_session : session_state :=
  (login_click one_user_db "5550100" fresh_session).1.

(** A sample decoder, which takes the payloads made of ASCII bytes only, and a
    sample reader, which finds one symbol that does not decode and one that
    does. *)
Definition ascii_decoder (payload : list Byte.byte) : option string :=
  if forallb (λ b, Nat.ltb (Byte.to_nat b) 128) payload
  then Some (string_of_list_byte payload) else None.

Definition two_symbols : list Decoded :=
  [ {| data := [Byte.xff; Byte.x30]; type := "CODE128" |};
    {| data := list_byte_of_string "3017620422003"; type := "EAN13" |} ].

(** What every session reached from a fresh one satisfies. *)
Definition session_ok (s : session_state) : Prop :=
  (logged_in s = true ↔ is_Some (user_mobile s)) ∧
  (current_page s ∈ ["profile"; "update_profile"; "scan"] → logged_in s = true) ∧
  current_page s ∈ ["login"; "register"; "profile"; "update_profile"; "scan"].

(** A server that cannot be reached, and documents without a product and
    without the shape of a dictionary. *)
Definition http_down : string → M pyval :=
  λ _, raise (RequestException "connection timed out").

Definition no_product_reply : pyval := VDict (<["status" := VInt 0]> ∅).

Definition list_reply : pyval := VList [VInt 1].




(** * Properties *)

(** ** The string primitives *)

Module PyStrFacts.
Import PyStr.

Lemma startswith_spec p s :
  startswith p s = true ↔ ∃ post, s = p ++ post.
Proof.
  revert s. induction p as [|a p IH]; intros s; simpl.
  - split; [intros _; by exists s | done].
  - destruct s as [|b s]; simpl.
    + split; [done | intros [post Hp]; discriminate].
    + rewrite andb_true_iff, IH. split.
      * intros [Hab [post ->]]. apply Ascii.eqb_eq in Hab as ->. by exists post.
      * intros [post Hp]. injection Hp as -> ->. split; [apply Ascii.eqb_refl | by exists post].
Qed.

Lemma contains_spec needle hay :
  contains needle hay = true ↔ substring needle hay.
Proof.
  unfold substring. induction hay as [|c r IH].
  - simpl. rewrite orb_false_r, startswith_spec. split.
    + intros [post Hp]. by exists "", post.
    + intros [pre [post Hp]]. destruct pre; [by exists post | discriminate].
  - cbn [contains]. rewrite orb_true_iff, startswith_spec, IH. split.
    + intros [[post Hp] | [pre [post Hp]]].
      * by exists "", post.
      * exists (String c pre), post. simpl. by rewrite Hp.
    + intros [pre [post Hp]]. destruct pre as [|a pre]; simpl in Hp.
      * left. by exists post.
      * right. injection Hp as -> ->. by exists pre, post.
Qed.

Lemma contains_empty_hay needle :
  truthy needle = true → contains needle "" = false.
Proof. by destruct needle. Qed.

Ltac each_char c :=
  destruct c as [[] [] [] [] [] [] [] []]; vm_compute; try reflexivity.

Lemma lower_char_idem c : lower_char (lower_char c) = lower_char c.
Proof. each_char c. Qed.

Lemma isspace_lower_char c : isspace (lower_char c) = isspace c.
Proof. each_char c. Qed.

Lemma lower_idem s : lower (lower s) = lower s.
Proof. induction s as [|c r IH]; simpl; [done | by rewrite lower_char_idem, IH]. Qed.

Lemma truthy_lower s : truthy (lower s) = truthy s.
Proof. by destruct s. Qed.

Lemma lower_app s1 s2 : lower (s1 ++ s2) = lower s1 ++ lower s2.
Proof. induction s1 as [|c r IH]; simpl; [done | by rewrite IH]. Qed.

Lemma lstrip_lower s : lstrip (lower s) = lower (lstrip s).
Proof.
  induction s as [|c r IH]; simpl; [done |].
  rewrite isspace_lower_char. by destruct (isspace c).
Qed.

Lemma rstrip_lower s : rstrip (lower s) = lower (rstrip s).
Proof.
  induction s as [|c r IH]; simpl; [done |].
  rewrite IH, isspace_lower_char.
  destruct (rstrip r); simpl; [by destruct (isspace c) | done].
Qed.

Lemma strip_lower s : strip (lower s) = lower (strip s).
Proof. unfold strip. by rewrite lstrip_lower, rstrip_lower. Qed.

(** What [strip] removes and what it keeps. *)

Lemma lstrip_empty s : lstrip s = "" ↔ all_chars isspace s = true.
Proof.
  induction s as [|c r IH]; simpl; [done |].
  destruct (isspace c); simpl; [done | split; discriminate].
Qed.

Lemma rstrip_empty s : rstrip s = "" ↔ all_chars isspace s = true.
Proof.
  induction s as [|c r IH]; simpl; [done |].
  destruct (rstrip r) eqn:Hr.
  - assert (all_chars isspace r = true) as -> by by apply IH.
    destruct (isspace c); simpl; [done | split; discriminate].
  - assert (all_chars isspace r ≠ true) as Hn by (rewrite <- IH; discriminate).
    apply not_true_is_false in Hn. rewrite Hn, andb_false_r. split; discriminate.
Qed.

Lemma all_chars_lstrip s :
  all_chars isspace (lstrip s) = all_chars isspace s.
Proof.
  induction s as [|c r IH]; simpl; [done |].
  destruct (isspace c) eqn:Hc; simpl; [done | by rewrite Hc].
Qed.

Lemma strip_empty s : strip s = "" ↔ all_chars isspace s = true.
Proof. unfold strip. by rewrite rstrip_empty, all_chars_lstrip. Qed.

Lemma truthy_false s : truthy s = false ↔ s = "".
Proof. destruct s; simpl; split; done. Qed.

Lemma truthy_true s : truthy s = true ↔ s ≠ "".
Proof. destruct s; simpl; split; done. Qed.

(** [strip] leaves nothing to strip. *)

Lemma rstrip_cons c r :
  rstrip r ≠ "" → rstrip (String c r) = String c (rstrip r).
Proof. simpl. by destruct (rstrip r). Qed.

Lemma rstrip_idem s : rstrip (rstrip s) = rstrip s.
Proof.
  induction s as [|c r IH]; simpl; [done |].
  destruct (rstrip r) as [|d r'] eqn:Hr.
  - destruct (isspace c) eqn:Hc; simpl; [done | by rewrite Hc].
  - rewrite rstrip_cons; rewrite IH; done.
Qed.

Lemma lstrip_rstrip_head c r :
  isspace c = false → lstrip (rstrip (String c r)) = rstrip (String c r).
Proof.
  intros Hc. simpl. destruct (rstrip r); rewrite ?Hc; simpl; by rewrite Hc.
Qed.

Lemma lstrip_head s :
  lstrip s = "" ∨ ∃ c r, lstrip s = String c r ∧ isspace c = false.
Proof.
  induction s as [|c r IH]; simpl; [by left |].
  destruct (isspace c) eqn:Hc; [done | right; eauto].
Qed.

Lemma lstrip_strip s : lstrip (strip s) = strip s.
Proof.
  unfold strip. destruct (lstrip_head s) as [-> | (c & r & -> & Hc)]; [done |].
  by apply lstrip_rstrip_head.
Qed.

Lemma strip_idem s : strip (strip s) = strip s.
Proof. unfold strip at 1. rewrite lstrip_strip. unfold strip. apply rstrip_idem. Qed.

(** [split] cuts at the separators and nowhere else. *)

Lemma split_not_nil sep s : split sep s ≠ [].
Proof.
  destruct s as [|c r]; simpl; [done |].
  destruct (Ascii.eqb c sep); [done | by destruct (split sep r)].
Qed.

Lemma concat_split sep s : String.concat (String sep "") (split sep s) = s.
Proof.
  induction s as [|c r IH]; [done |]. cbn [split].
  destruct (Ascii.eqb c sep) eqn:Hc.
  - apply Ascii.eqb_eq in Hc as ->.
    pose proof (split_not_nil sep r) as Hn.
    destruct (split sep r) as [|p ps]; [done |].
    change (String.concat (String sep "") ("" :: p :: ps))
      with (String sep (String.concat (String sep "") (p :: ps))).
    by rewrite IH.
  - pose proof (split_not_nil sep r) as Hn.
    destruct (split sep r) as [|p ps]; [done |].
    destruct ps as [|q qs]; simpl in *; by rewrite <- IH.
Qed.

Lemma split_pieces sep s :
  Forall (λ p, all_chars (λ c, negb (Ascii.eqb c sep)) p = true) (split sep s).
Proof.
  induction s as [|c r IH]; simpl; [by repeat constructor |].
  destruct (Ascii.eqb c sep) eqn:Hc; [by constructor |].
  destruct (split sep r) as [|p ps]; simpl.
  - repeat constructor. simpl. by rewrite Hc.
  - inversion IH as [|? ? Hp Hps]; subst. constructor; [|done].
    simpl. by rewrite Hc, Hp.
Qed.

Lemma split_all_chars (P : ascii → bool) sep s :
  P sep = false →
  Forall (λ p, all_chars P p = true) (split sep s)
  ↔ all_chars (λ c, P c || Ascii.eqb c sep) s = true.
Proof.
  intros Hsep. induction s as [|c r IH]; simpl.
  - split; [done | by repeat constructor].
  - destruct (Ascii.eqb c sep) eqn:Hc.
    + rewrite orb_true_r; simpl. rewrite <- IH. split.
      * by inversion 1.
      * by constructor.
    + rewrite orb_false_r. pose proof (split_not_nil sep r) as Hn.
      destruct (split sep r) as [|p ps]; [done |].
      rewrite andb_true_iff, <- IH. split.
      * inversion 1 as [|? ? Hp Hps]; subst. simpl in Hp.
        apply andb_true_iff in Hp as [? ?]. split; [done | by constructor].
      * intros [Hc' Hall]. inversion Hall as [|? ? Hp Hps]; subst.
        constructor; [|done]. simpl. by rewrite Hc', Hp.
Qed.

End PyStrFacts.

(** ** The matching engine *)

Ltac run_check :=
  unfold check_product_safety, the_product_info, the_user, user_tokens, py_lower,
    try_except, st_error, raise, mbind, M_bind, mret, M_ret; simpl.

Section Engine.
Import PyStr PyStrFacts.

Lemma tokens_spec s t :
  t ∈ tokens s ↔ ∃ x, x ∈ split "," s ∧ strip x ≠ "" ∧ t = lower (strip x).
Proof.
  unfold tokens. rewrite list_elem_of_fmap. split.
  - intros (x & -> & Hx). apply list_elem_of_filter in Hx as [Hx ?].
    exists x. split_and!; [done | | done]. apply truthy_true. by apply Is_true_true.
  - intros (x & Hx & Hne & ->). exists x. split; [done |].
    apply list_elem_of_filter. split; [|done].
    apply Is_true_true. by apply truthy_true.
Qed.

(** A token is trimmed, not empty and in lower case. *)
Lemma tokens_normal s t :
  t ∈ tokens s → t ≠ "" ∧ strip t = t ∧ lower t = t.
Proof.
  intros (x & _ & Hne & ->)%tokens_spec. split_and!.
  - apply truthy_true. rewrite truthy_lower. by apply truthy_true.
  - by rewrite strip_lower, strip_idem.
  - apply lower_idem.
Qed.

Lemma tokens_nil s : tokens s = [] ↔ blank s = true.
Proof.
  unfold tokens, blank.
  rewrite <- (split_all_chars isspace "," s) by done.
  rewrite Forall_forall. split.
  - intros Hnil%fmap_nil_inv x Hx. apply strip_empty. apply truthy_false.
    destruct (truthy (strip x)) eqn:Ht; [|done].
    assert (x ∈ filter (λ x, truthy (strip x)) (split "," s)) as Hin.
    { apply list_elem_of_filter. split; [by rewrite Ht | done]. }
    rewrite Hnil in Hin. by apply not_elem_of_nil in Hin.
  - intros Hall.
    enough (filter (λ x, truthy (strip x)) (split "," s) = []) as -> by done.
    apply elem_of_nil_inv. intros x [Ht Hx]%list_elem_of_filter.
    apply Is_true_true, truthy_true in Ht. by apply Ht, strip_empty, Hall.
Qed.

Lemma conflicts_spec toks hay t :
  t ∈ conflicts toks hay ↔ t ∈ toks ∧ t ≠ "" ∧ substring t hay.
Proof.
  unfold conflicts. rewrite list_elem_of_filter.
  rewrite <- contains_spec, <- truthy_true, andb_True, !Is_true_true. tauto.
Qed.

Lemma conflicts_sublist toks hay : conflicts toks hay `sublist_of` toks.
Proof. apply sublist_filter. Qed.

Lemma conflicts_nil_hay toks : conflicts toks "" = [].
Proof.
  apply elem_of_nil_inv. intros t (_ & Hne & pre & post & Hp)%conflicts_spec.
  destruct pre; [destruct t |]; done.
Qed.

Lemma not_or_spec a b : not_or a b = true ↔ a = [] ∧ b = [].
Proof. destruct a, b; simpl; split; try done; by intros []. Qed.

(** A call returns: whatever the try block raises is caught. *)
Lemma check_returns w : ∃ r w', check_product_safety w = (Returned r, w').
Proof.
  destruct w as [[d|] [u|] pg]; run_check; eauto;
    destruct (dict_truthy d); eauto.
  destruct (allergies u), (health_conditions u); simpl; eauto.
  destruct (dict_get d "ingredients" (VStr "")); simpl; eauto.
Qed.

(** The inputs for which a verdict is produced, and the verdict. *)
Lemma check_verdict w d u a h s :
  product_info w = Some d → dict_truthy d = true →
  user w = Some u → allergies u = Some a → health_conditions u = Some h →
  dict_get d "ingredients" (VStr "") = VStr s →
  check_product_safety w = (Returned (Some (verdict_for d a h s)), w).
Proof.
  destruct w as [p u' pg]. simpl. intros -> Hd -> Ha Hh Hs. run_check.
  rewrite Hd, Ha, Hh. simpl. rewrite Hs. simpl.
  unfold verdict_for. by rewrite Hs.
Qed.

Lemma check_verdict_inv w v w' :
  check_product_safety w = (Returned (Some v), w') →
  ∃ d u a h s,
    product_info w = Some d ∧ dict_truthy d = true ∧
    user w = Some u ∧ allergies u = Some a ∧ health_conditions u = Some h ∧
    dict_get d "ingredients" (VStr "") = VStr s ∧
    w' = w ∧ v = verdict_for d a h s.
Proof.
  destruct w as [[d|] [u|] pg]; run_check; try discriminate;
    destruct (dict_truthy d) eqn:Hd; try discriminate.
  destruct (allergies u) as [a|] eqn:Ha, (health_conditions u) as [h|] eqn:Hh;
    simpl; try discriminate.
  destruct (dict_get d "ingredients" (VStr "")) as [| | | |s| |] eqn:Hs;
    simpl; try discriminate.
  intros [= <- <-]. exists d, u, a, h, s.
  split_and!; try done. unfold verdict_for. by rewrite Hs.
Qed.

Lemma dict_truthy_spec (d : dict) : dict_truthy d = true ↔ d ≠ ∅.
Proof.
  unfold dict_truthy. rewrite <- (map_to_list_empty_iff d).
  destruct (map_to_list d); split; done.
Qed.

(** The two conflict lists of a verdict, read off the inputs. *)
Lemma check_conflicts w v w' :
  check_product_safety w = (Returned (Some v), w') →
  ∃ d u a h s,
    product_info w = Some d ∧ user w = Some u ∧
    allergies u = Some a ∧ health_conditions u = Some h ∧
    dict_get d "ingredients" (VStr "") = VStr s ∧
    conflicting_allergies v = conflicts (tokens a) (lower s) ∧
    conflicting_conditions v = conflicts (tokens h) (lower s) ∧
    is_safe v = not_or (conflicting_allergies v) (conflicting_conditions v).
Proof.
  intros (d & u & a & h & s & ? & ? & ? & ? & ? & ? & _ & ->)%check_verdict_inv.
  by exists d, u, a, h, s.
Qed.

End Engine.

(** ** The verdict *)

Section Verdict.
Import PyStr PyStrFacts.

(** C1. Whenever the safety check returns a verdict, its [is_safe] is true
    exactly when [conflicting_allergies] and [conflicting_conditions] are both
    empty. *)
Theorem is_safe_iff_no_conflicts w v w' :
  check_product_safety w = (Returned (Some v), w') →
  is_safe v = true
  ↔ conflicting_allergies v = [] ∧ conflicting_conditions v = [].
Proof.
  intros (d & u & a & h & s & _ & _ & _ & _ & _ & _ & _ & ->)%check_conflicts.
  apply not_or_spec.
Qed.

Lemma is_safe_iff_no_conflicts_witness :
  ∃ v, check_product_safety eggplant_call = (Returned (Some v), eggplant_call) ∧
       (is_safe v = true
        ↔ conflicting_allergies v = [] ∧ conflicting_conditions v = []).
Proof.
  eexists. split; [vm_compute; reflexivity |].
  apply (is_safe_iff_no_conflicts eggplant_call _ eggplant_call).
  vm_compute. reflexivity.
Defined.

(** C2. For a user field [a] and an ingredient text [s]: each piece of [a]
    between commas that is not blank gives, trimmed and lower-cased, a token
    that is in the conflict list iff it is a contiguous substring of the
    lower-cased [s]; and the conflict list holds nothing but such tokens.  The
    same for the conditions. *)
Theorem conflict_iff_substring w v w' :
  check_product_safety w = (Returned (Some v), w') →
  ∃ d u a h s,
    product_info w = Some d ∧ user w = Some u ∧
    allergies u = Some a ∧ health_conditions u = Some h ∧
    dict_get d "ingredients" (VStr "") = VStr s ∧
    (∀ x, x ∈ split "," a → strip x ≠ "" →
       lower (strip x) ∈ conflicting_allergies v
       ↔ substring (lower (strip x)) (lower s)) ∧
    (∀ t, t ∈ conflicting_allergies v →
       t ∈ tokens a ∧ substring t (lower s)) ∧
    (∀ x, x ∈ split "," h → strip x ≠ "" →
       lower (strip x) ∈ conflicting_conditions v
       ↔ substring (lower (strip x)) (lower s)) ∧
    (∀ t, t ∈ conflicting_conditions v →
       t ∈ tokens h ∧ substring t (lower s)).
Proof.
  intros (d & u & a & h & s & ? & ? & ? & ? & ? & -> & -> & _)%check_conflicts.
  exists d, u, a, h, s. split_and!; try done.
  - intros x Hx Hne. rewrite conflicts_spec. split; [tauto |]. intros Hsub.
    assert (lower (strip x) ∈ tokens a) as Ht by (apply tokens_spec; eauto).
    split_and!; [done | apply (tokens_normal _ _ Ht) | done].
  - intros t Ht%conflicts_spec. tauto.
  - intros x Hx Hne. rewrite conflicts_spec. split; [tauto |]. intros Hsub.
    assert (lower (strip x) ∈ tokens h) as Ht by (apply tokens_spec; eauto).
    split_and!; [done | apply (tokens_normal _ _ Ht) | done].
  - intros t Ht%conflicts_spec. tauto.
Qed.

Lemma conflict_iff_substring_witness :
  ∃ v d u a h s,
    check_product_safety cookies_call = (Returned (Some v), cookies_call) ∧
    conflicting_allergies v = ["peanut"] ∧
    product_info cookies_call = Some d ∧ user cookies_call = Some u ∧
    allergies u = Some a ∧ health_conditions u = Some h ∧
    dict_get d "ingredients" (VStr "") = VStr s ∧
    (∀ x, x ∈ split "," a → strip x ≠ "" →
       lower (strip x) ∈ conflicting_allergies v
       ↔ substring (lower (strip x)) (lower s)) ∧
    (∀ t, t ∈ conflicting_allergies v →
       t ∈ tokens a ∧ substring t (lower s)) ∧
    (∀ x, x ∈ split "," h → strip x ≠ "" →
       lower (strip x) ∈ conflicting_conditions v
       ↔ substring (lower (strip x)) (lower s)) ∧
    (∀ t, t ∈ conflicting_conditions v →
       t ∈ tokens h ∧ substring t (lower s)).
Proof.
  eexists.
  pose proof (conflict_iff_substring cookies_call _ cookies_call
                ltac:(vm_compute; reflexivity))
    as (d & u & a & h & s & H).
  exists d, u, a, h, s.
  split; [vm_compute; reflexivity | split; [reflexivity | exact H]].
Defined.

(** C3. The tokens of [conflicting_allergies] stand in the order in which
    their pieces stand in the user's comma-separated allergy string, whatever
    the ingredient text is; likewise [conflicting_conditions] and the
    condition string. *)
Theorem conflicts_in_user_order w v w' :
  check_product_safety w = (Returned (Some v), w') →
  ∃ u a h,
    user w = Some u ∧ allergies u = Some a ∧ health_conditions u = Some h ∧
    conflicting_allergies v
      `sublist_of` ((λ x, lower (strip x)) <$> split "," a) ∧
    conflicting_conditions v
      `sublist_of` ((λ x, lower (strip x)) <$> split "," h).
Proof.
  intros (d & u & a & h & s & ? & ? & ? & ? & ? & -> & -> & _)%check_conflicts.
  exists u, a, h. split_and!; try done.
  - etrans; [apply conflicts_sublist |]. apply fmap_sublist, sublist_filter.
  - etrans; [apply conflicts_sublist |]. apply fmap_sublist, sublist_filter.
Qed.

Lemma conflicts_in_user_order_witness :
  ∃ v, check_product_safety cake_call = (Returned (Some v), cake_call) ∧
       conflicting_allergies v = ["milk"; "egg"] ∧
       ∃ u a h,
         user cake_call = Some u ∧
         allergies u = Some a ∧ health_conditions u = Some h ∧
         conflicting_allergies v
           `sublist_of` ((λ x, lower (strip x)) <$> split "," a) ∧
         conflicting_conditions v
           `sublist_of` ((λ x, lower (strip x)) <$> split "," h).
Proof.
  eexists. split; [vm_compute; reflexivity |]. split; [reflexivity |].
  apply (conflicts_in_user_order cake_call _ cake_call). vm_compute. reflexivity.
Defined.

(** C6. A user whose two fields normalise to no token at all is safe with
    every product the check accepts, whatever its ingredient text [s]: both
    conflict lists are empty. *)
Theorem no_tokens_is_safe w d u a h s :
  product_info w = Some d → d ≠ ∅ →
  user w = Some u → allergies u = Some a → health_conditions u = Some h →
  dict_get d "ingredients" (VStr "") = VStr s →
  tokens a = [] → tokens h = [] →
  ∃ v, check_product_safety w = (Returned (Some v), w) ∧
       is_safe v = true ∧
       conflicting_allergies v = [] ∧ conflicting_conditions v = [].
Proof.
  intros Hp Hd%dict_truthy_spec Hu Ha Hh Hs Hta Hth.
  exists (verdict_for d a h s). split; [by eapply check_verdict |].
  unfold verdict_for. simpl. by rewrite Hta, Hth.
Qed.

Lemma no_tokens_is_safe_witness :
  ∃ v, check_product_safety
         (mk_world (Some (mk_product "Cake" "Egg, sugar, MILK powder"))
                   (Some (mk_user (Some " , ,") (Some ""))))
       = (Returned (Some v),
          mk_world (Some (mk_product "Cake" "Egg, sugar, MILK powder"))
                   (Some (mk_user (Some " , ,") (Some "")))) ∧
       is_safe v = true ∧
       conflicting_allergies v = [] ∧ conflicting_conditions v = [].
Proof.
  apply (no_tokens_is_safe _ (mk_product "Cake" "Egg, sugar, MILK powder")
           (mk_user (Some " , ,") (Some "")) " , ," "" "Egg, sugar, MILK powder");
    try reflexivity.
  apply dict_truthy_spec. vm_compute. reflexivity.
Defined.



(** C5, as the code has it.  A reported token is the lower-cased form of a
    trimmed, non-blank piece of the user's field; lower-casing it again
    changes nothing, so the spelling the user typed is not what comes back. *)
Theorem reported_tokens_are_lower_cased w v w' :
  check_product_safety w = (Returned (Some v), w') →
  ∃ u a h,
    user w = Some u ∧ allergies u = Some a ∧ health_conditions u = Some h ∧
    (∀ t, t ∈ conflicting_allergies v →
       lower t = t ∧
       ∃ x, x ∈ split "," a ∧ strip x ≠ "" ∧ t = lower (strip x)) ∧
    (∀ t, t ∈ conflicting_conditions v →
       lower t = t ∧
       ∃ x, x ∈ split "," h ∧ strip x ≠ "" ∧ t = lower (strip x)).
Proof.
  intros (d & u & a & h & s & ? & ? & ? & ? & ? & -> & -> & _)%check_conflicts.
  exists u, a, h. split_and!; try done.
  - intros t [Ht _]%conflicts_spec. split; [apply (tokens_normal _ _ Ht) |].
    by apply tokens_spec.
  - intros t [Ht _]%conflicts_spec. split; [apply (tokens_normal _ _ Ht) |].
    by apply tokens_spec.
Qed.

Lemma reported_tokens_are_lower_cased_witness :
  ∃ v u a h,
    check_product_safety cookies_call = (Returned (Some v), cookies_call) ∧
    user cookies_call = Some u ∧
    allergies u = Some a ∧ health_conditions u = Some h ∧
    (∀ t, t ∈ conflicting_allergies v →
       lower t = t ∧
       ∃ x, x ∈ split "," a ∧ strip x ≠ "" ∧ t = lower (strip x)) ∧
    (∀ t, t ∈ conflicting_conditions v →
       lower t = t ∧
       ∃ x, x ∈ split "," h ∧ strip x ≠ "" ∧ t = lower (strip x)).
Proof.
  eexists.
  pose proof (reported_tokens_are_lower_cased cookies_call _ cookies_call
                ltac:(vm_compute; reflexivity))
    as (u & a & h & H).
  exists u, a, h. split; [vm_compute; reflexivity | exact H].
Defined.

(** C5 fails as stated: the user typed [" Peanut"], trimmed ["Peanut"], and
    the conflict list holds ["peanut"] and not ["Peanut"]. *)
Lemma original_spelling_not_reported :
  ∃ v, check_product_safety cookies_call = (Returned (Some v), cookies_call) ∧
       [" Peanut"; " Gluten"]
         = split "," (default "" (allergies (mk_user (Some " Peanut, Gluten")
                                                     (Some "diabetes")))) ∧
       strip " Peanut" = "Peanut" ∧
       conflicting_allergies v = ["peanut"] ∧
       "Peanut" ∉ conflicting_allergies v.
Proof.
  eexists. split; [vm_compute; reflexivity |]. simpl.
  split_and!; try reflexivity.
  intros [Heq | Hin%elem_of_nil]%elem_of_cons; [discriminate | done].
Qed.

End Verdict.

(** ** Failures, determinism and the frame *)

Section Outcomes.
Import PyStr PyStrFacts.

(** C4, as the code has it.  No exception leaves the call.  A product that is
    [None] or an empty dictionary is refused with "Product information is
    required"; then a user that is [None] is refused with "User information
    is required"; both refusals return [None].  Otherwise a verdict is
    returned when the two user fields are strings and [ingredients] is a
    string or missing, and a missing or empty [ingredients] gives no match;
    a NULL user field or an [ingredients] that is not a string is caught and
    reported as "Error checking product safety: ...", with [None] returned. *)
Theorem check_outcomes w :
  (∃ r w', check_product_safety w = (Returned r, w')) ∧
  (product_info w = None ∨ product_info w = Some ∅ →
     check_product_safety w
     = (Returned None, shown "Product information is required" w)) ∧
  (∀ d, product_info w = Some d → d ≠ ∅ → user w = None →
     check_product_safety w
     = (Returned None, shown "User information is required" w)) ∧
  (∀ d u a h,
     product_info w = Some d → d ≠ ∅ → user w = Some u →
     allergies u = Some a → health_conditions u = Some h →
     (d !! "ingredients" = None ∨ ∃ s, d !! "ingredients" = Some (VStr s)) →
     ∃ v, check_product_safety w = (Returned (Some v), w) ∧
          (d !! "ingredients" = None ∨ d !! "ingredients" = Some (VStr "") →
           conflicting_allergies v = [] ∧ conflicting_conditions v = [] ∧
           is_safe v = true)) ∧
  (∀ d u,
     product_info w = Some d → d ≠ ∅ → user w = Some u →
     (allergies u = None ∨ health_conditions u = None
      ∨ ∃ x, d !! "ingredients" = Some x ∧ ∀ s, x ≠ VStr s) →
     ∃ e, check_product_safety w
          = (Returned None,
             shown ("Error checking product safety: " ++ exn_str e) w)).
Proof.
  split_and!.
  - apply check_returns.
  - destruct w as [p u pg]. simpl. intros [-> | ->]; by run_check.
  - destruct w as [p u pg]. simpl. intros d -> Hd%dict_truthy_spec ->.
    run_check. by rewrite Hd.
  - intros d u a h Hp Hd%dict_truthy_spec Hu Ha Hh Hi.
    assert (∃ s, dict_get d "ingredients" (VStr "") = VStr s
                 ∧ (d !! "ingredients" = None ∨ d !! "ingredients" = Some (VStr "")
                    → s = "")) as (s & Hs & Hempty).
    { unfold dict_get. destruct Hi as [-> | [s ->]]; simpl.
      - by exists "".
      - exists s. split; [done |]. intros [? | [= ->]]; done. }
    exists (verdict_for d a h s). split; [by eapply check_verdict |].
    intros ->%Hempty. unfold verdict_for. simpl. by rewrite !conflicts_nil_hay.
  - destruct w as [p u' pg]. simpl. intros d u -> Hd%dict_truthy_spec -> Hbad.
    run_check. rewrite Hd. unfold shown. simpl.
    destruct (allergies u) as [a|]; simpl;
      [| by exists (AttributeError "NoneType" "split")].
    destruct (health_conditions u) as [h|]; simpl;
      [| by exists (AttributeError "NoneType" "split")].
    destruct Hbad as [? | [? | (x & Hx & Hns)]]; try done.
    unfold dict_get. rewrite Hx. simpl.
    exists (AttributeError (type_name x) "lower").
    destruct x; simpl; try done. by destruct (Hns s).
Qed.

Lemma check_outcomes_witness :
  (∃ v, check_product_safety eggplant_call = (Returned (Some v), eggplant_call)) ∧
  check_product_safety empty_product_call
  = (Returned None, shown "Product information is required" empty_product_call) ∧
  (∃ e, check_product_safety null_allergies_call
        = (Returned None,
           shown ("Error checking product safety: " ++ exn_str e)
                 null_allergies_call)).
Proof.
  split_and!.
  - destruct (check_outcomes eggplant_call) as (_ & _ & _ & Hok & _).
    destruct (Hok (mk_product "Aubergine dip" "eggplant extract")
                  (mk_user (Some "egg") (Some "")) "egg" "")
      as (v & Hv & _); try reflexivity.
    + apply dict_truthy_spec. vm_compute. reflexivity.
    + right. eexists. reflexivity.
    + by exists v.
  - destruct (check_outcomes empty_product_call) as (_ & Hrefused & _).
    apply Hrefused. right. reflexivity.
  - destruct (check_outcomes null_allergies_call) as (_ & _ & _ & _ & Hcaught).
    apply (Hcaught (mk_product "Aubergine dip" "eggplant extract")
                   (mk_user None (Some ""))); try reflexivity.
    + apply dict_truthy_spec. vm_compute. reflexivity.
    + left. reflexivity.
Defined.

(** C4 fails as stated: here product and user are both present, and the call
    returns [None] after [st.error]; an empty dictionary counts as no product,
    and a NULL [allergies] column is caught by the [except] clause. *)
Lemma present_inputs_without_verdict :
  is_Some (product_info empty_product_call) ∧
  is_Some (user empty_product_call) ∧
  check_product_safety empty_product_call
  = (Returned None, shown "Product information is required" empty_product_call) ∧
  is_Some (product_info null_allergies_call) ∧
  is_Some (user null_allergies_call) ∧
  check_product_safety null_allergies_call
  = (Returned None,
     shown "Error checking product safety: 'NoneType' object has no attribute 'split'"
           null_allergies_call).
Proof. split_and!; try (by eexists); vm_compute; reflexivity. Qed.





(** C10. A call leaves the two objects it was given as they were: the product
    dictionary and the user row after the call are those before it.  In a
    verdict, [product_name], [product_brand] and [product_ingredients] are
    the product's [title], [brand] and [ingredients] as they stand in the
    dictionary ("Unknown", "Unknown" and "" stand in for a missing key). *)
Theorem check_leaves_inputs w r w' :
  check_product_safety w = (r, w') →
  product_info w' = product_info w ∧ user w' = user w ∧
  ∀ v, r = Returned (Some v) →
    page w' = page w ∧
    ∃ d, product_info w = Some d ∧
      product_name v = dict_get d "title" (VStr "Unknown") ∧
      product_brand v = dict_get d "brand" (VStr "Unknown") ∧
      product_ingredients v = dict_get d "ingredients" (VStr "") ∧
      (∀ x, d !! "title" = Some x → product_name v = x) ∧
      (∀ x, d !! "brand" = Some x → product_brand v = x) ∧
      (∀ x, d !! "ingredients" = Some x → product_ingredients v = x).
Proof.
  intros Hrun. split_and!.
  - revert Hrun. destruct w as [[d|] [u|] pg]; run_check;
      try (by intros [= <- <-]);
      destruct (dict_truthy d); try (by intros [= <- <-]).
    destruct (allergies u), (health_conditions u); simpl;
      try (by intros [= <- <-]).
    destruct (dict_get d "ingredients" (VStr "")); simpl; by intros [= <- <-].
  - revert Hrun. destruct w as [[d|] [u|] pg]; run_check;
      try (by intros [= <- <-]);
      destruct (dict_truthy d); try (by intros [= <- <-]).
    destruct (allergies u), (health_conditions u); simpl;
      try (by intros [= <- <-]).
    destruct (dict_get d "ingredients" (VStr "")); simpl; by intros [= <- <-].
  - intros v ->.
    apply check_verdict_inv in Hrun
      as (d & u & a & h & s & Hp & _ & _ & _ & _ & _ & -> & ->).
    split; [done |]. exists d. unfold verdict_for, dict_get. simpl.
    split_and!; try done; by intros x ->.
Qed.

Lemma check_leaves_inputs_witness :
  ∃ v, check_product_safety cookies_call = (Returned (Some v), cookies_call) ∧
       product_name v = VStr "Cookies" ∧
       product_brand v = VStr "Acme" ∧
       product_ingredients v = VStr "Wheat flour, peanut oil, sugar".
Proof.
  eexists. split; [vm_compute; reflexivity |].
  destruct (check_leaves_inputs cookies_call _ cookies_call
              ltac:(vm_compute; reflexivity)) as (_ & _ & Hv).
  destruct (Hv _ eq_refl) as (_ & d & [= <-] & _ & _ & _ & Ht & Hb & Hi).
  split_and!; [apply Ht | apply Hb | apply Hi]; reflexivity.
Defined.

End Outcomes.

(** ** The product lookup *)

Section LookupFacts.

Ltac run_lookup :=
  unfold get_product_from_openfoodfacts, product_record, py_get, py_getitem,
    try_except, st_error, raise, mbind, M_bind, mret, M_ret; simpl.

(** What the lookup returns for a document that has a product. *)
Lemma lookup_found http barcode w w1 dd product :
  barcode ≠ "" →
  http (product_url barcode) w = (Returned (VDict dd), w1) →
  dd !! "product" = Some (VDict product) → product ≠ ∅ →
  get_product_from_openfoodfacts http barcode w
  = (Returned (Some
       (<["barcode" := VStr barcode]>
        (<["title" := dict_get product "product_name" (VStr "No product title found")]>
        (<["brand" := dict_get product "brands" (VStr "Unknown brand")]>
        (<["description" :=
             dict_get product "generic_name" (VStr "No description available")]>
        (<["ingredients" :=
             py_or (dict_get product "ingredients_text" (VStr "")) (VStr "")]>
        (<["category" := dict_get product "categories" (VStr "Unknown category")]>
           ∅))))))), w1).
Proof.
  intros Hb Hhttp Hprod Hne%dict_truthy_spec.
  apply PyStrFacts.truthy_true in Hb. run_lookup. rewrite Hb. simpl.
  unfold product_url in Hhttp. rewrite Hhttp.
  unfold dict_get at 1. rewrite Hprod. simpl. by rewrite Hne.
Qed.

(** C8, as the code has it.  For a document with a product record, the
    lookup returns a dictionary of six keys.  [title], [brand], [description]
    and [category] are the record's [product_name], [brands], [generic_name]
    and [categories] when the record has them (null included), and their
    placeholders otherwise.  [ingredients] is the record's [ingredients_text]
    when that is present and truthy, and [""] when it is missing or falsy
    (null, false, zero, or empty): it is never null. *)
Theorem lookup_fills_placeholders http barcode w w1 dd product :
  barcode ≠ "" →
  http (product_url barcode) w = (Returned (VDict dd), w1) →
  dd !! "product" = Some (VDict product) → product ≠ ∅ →
  ∃ r,
    get_product_from_openfoodfacts http barcode w = (Returned (Some r), w1) ∧
    r !! "barcode" = Some (VStr barcode) ∧
    filled product r "product_name" "title" (VStr "No product title found") ∧
    filled product r "brands" "brand" (VStr "Unknown brand") ∧
    filled product r "generic_name" "description" (VStr "No description available") ∧
    filled product r "categories" "category" (VStr "Unknown category") ∧
    (product !! "ingredients_text" = None → r !! "ingredients" = Some (VStr "")) ∧
    (∀ x, product !! "ingredients_text" = Some x →
          r !! "ingredients" = Some (if truthy x then x else VStr "")) ∧
    r !! "ingredients" ≠ Some VNone ∧
    dom r = {[ "barcode"; "title"; "brand"; "description"; "ingredients";
               "category" ]}.
Proof.
  intros Hb Hhttp Hprod Hne. eexists. split; [by eapply lookup_found |].
  unfold filled, dict_get, py_or. split_and!.
  - by simplify_map_eq.
  - destruct (product !! "product_name"); by simplify_map_eq.
  - destruct (product !! "brands"); by simplify_map_eq.
  - destruct (product !! "generic_name"); by simplify_map_eq.
  - destruct (product !! "categories"); by simplify_map_eq.
  - intros ->. by simplify_map_eq.
  - intros x ->. by simplify_map_eq.
  - simplify_map_eq. destruct (product !! "ingredients_text") as [x|]; simpl; [|done].
    destruct (truthy x) eqn:Hx; [|done]. intros [= ->]. done.
  - rewrite !dom_insert_L, dom_empty_L. set_solver.
Qed.

Lemma lookup_fills_placeholders_witness :
  ∃ r,
    get_product_from_openfoodfacts (http_reply sparse_reply) "3017620422003"
      (mk_world None None)
    = (Returned (Some r), mk_world None None) ∧
    r !! "barcode" = Some (VStr "3017620422003") ∧
    filled sparse_product r "product_name" "title" (VStr "No product title found") ∧
    filled sparse_product r "brands" "brand" (VStr "Unknown brand") ∧
    filled sparse_product r "generic_name" "description"
           (VStr "No description available") ∧
    filled sparse_product r "categories" "category" (VStr "Unknown category") ∧
    (sparse_product !! "ingredients_text" = None →
     r !! "ingredients" = Some (VStr "")) ∧
    (∀ x, sparse_product !! "ingredients_text" = Some x →
          r !! "ingredients" = Some (if truthy x then x else VStr "")) ∧
    r !! "ingredients" ≠ Some VNone ∧
    dom r = {[ "barcode"; "title"; "brand"; "description"; "ingredients";
               "category" ]}.
Proof.
  apply (lookup_fills_placeholders (http_reply sparse_reply) "3017620422003"
           (mk_world None None) (mk_world None None)
           (<["status" := VInt 1]> (<["product" := VDict sparse_product]> ∅))
           sparse_product); try reflexivity.
  - discriminate.
  - apply dict_truthy_spec. vm_compute. reflexivity.
Defined.

(** C8 fails as stated: the record has [product_name] (null) and
    [ingredients_text] (an empty list); the null name is carried through, not
    replaced by its placeholder, and the ingredients that are present are not
    carried through but replaced by [""]. *)
Lemma present_ingredients_replaced :
  ∃ r,
    get_product_from_openfoodfacts (http_reply sparse_reply) "3017620422003"
      (mk_world None None)
    = (Returned (Some r), mk_world None None) ∧
    sparse_product !! "product_name" = Some VNone ∧
    r !! "title" = Some VNone ∧
    sparse_product !! "ingredients_text" = Some (VList []) ∧
    r !! "ingredients" = Some (VStr "") ∧
    r !! "ingredients" ≠ sparse_product !! "ingredients_text".
Proof.
  eexists. split; [vm_compute; reflexivity |].
  split_and!; try (vm_compute; reflexivity). vm_compute. discriminate.
Qed.

End LookupFacts.

(** ** Fields made of several entries *)

Module PyStrSplit.
Import PyStr PyStrFacts.

Lemma split_app sep a b :
  split sep (a ++ String sep b) = (split sep a ++ split sep b)%list.
Proof.
  induction a as [|c r IH]; simpl.
  - by rewrite Ascii.eqb_refl.
  - destruct (Ascii.eqb c sep); [by rewrite IH |].
    rewrite IH. pose proof (split_not_nil sep r) as Hn.
    by destruct (split sep r).
Qed.

Lemma split_no_sep sep x :
  all_chars (λ c, negb (Ascii.eqb c sep)) x = true → split sep x = [x].
Proof.
  induction x as [|c r IH]; simpl; [done |].
  intros [Hc Hr]%andb_true_iff. apply negb_true_iff in Hc. rewrite Hc.
  by rewrite (IH Hr).
Qed.

Lemma comma_lower_char c : Ascii.eqb (lower_char c) "," = Ascii.eqb c ",".
Proof. each_char c. Qed.

Lemma split_lower s : split "," (lower s) = lower <$> split "," s.
Proof.
  induction s as [|c r IH]; simpl; [done |].
  rewrite comma_lower_char, IH. destruct (Ascii.eqb c ","); [done |].
  by destruct (split "," r).
Qed.

Lemma lstrip_space_cons c s : isspace c = true → lstrip (String c s) = lstrip s.
Proof. simpl. by intros ->. Qed.

Lemma split_cons_other sep c s :
  Ascii.eqb c sep = false →
  ∃ p ps, split sep s = p :: ps ∧ split sep (String c s) = String c p :: ps.
Proof.
  intros Hc. simpl. rewrite Hc. pose proof (split_not_nil sep s) as Hn.
  destruct (split sep s) as [|p ps]; [done | eauto].
Qed.

End PyStrSplit.

Section Fields.
Import PyStr PyStrFacts PyStrSplit.

Lemma tokens_app a b : tokens (a ++ String "," b) = (tokens a ++ tokens b)%list.
Proof. unfold tokens. by rewrite split_app, filter_app, fmap_app. Qed.

Lemma shown_tokens_app a b :
  shown_tokens (a ++ String "," b) = (shown_tokens a ++ shown_tokens b)%list.
Proof. unfold shown_tokens. by rewrite split_app, filter_app, fmap_app. Qed.

Lemma tokens_shown field : tokens field = lower <$> shown_tokens field.
Proof. unfold tokens, shown_tokens. by rewrite <- list_fmap_compose. Qed.

Lemma shown_tokens_space s : shown_tokens (String " " s) = shown_tokens s.
Proof.
  unfold shown_tokens.
  destruct (split_cons_other "," " " s eq_refl) as (p & ps & Hs & ->).
  rewrite Hs, !filter_cons.
  assert (strip (String " " p) = strip p) as -> by done.
  by destruct (decide _).
Qed.

Lemma shown_tokens_clean x : clean x = true → shown_tokens x = [x].
Proof.
  unfold clean, shown_tokens.
  intros [[Ht Hs%String.eqb_eq]%andb_true_iff Hc]%andb_true_iff.
  rewrite (split_no_sep _ _ Hc), filter_cons, Hs.
  rewrite decide_True by by apply Is_true_true. simpl. by rewrite Hs.
Qed.

Lemma shown_tokens_join l :
  shown_tokens (str_join ", " l) = l ≫= shown_tokens.
Proof.
  induction l as [|x [|y l] IH]; [done | |].
  - simpl. by rewrite app_nil_r.
  - change (str_join ", " (x :: y :: l))
      with (x ++ String "," (String " " (str_join ", " (y :: l)))).
    by rewrite shown_tokens_app, shown_tokens_space, IH.
Qed.

Lemma tokens_lower s : tokens (lower s) = tokens s.
Proof.
  unfold tokens. rewrite split_lower.
  induction (split "," s) as [|x l IH]; [done |].
  rewrite fmap_cons, !filter_cons, strip_lower, truthy_lower.
  destruct (decide _); [|done].
  by rewrite !fmap_cons, IH, strip_lower, lower_idem.
Qed.

Lemma append_assoc (a b c : string) : (a ++ b) ++ c = a ++ (b ++ c).
Proof.
  induction a as [|x a IH]; [done |].
  change (String x ((a ++ b) ++ c) = String x (a ++ (b ++ c))). by f_equal.
Qed.

Lemma substring_trans a b c : substring a b → substring b c → substring a c.
Proof.
  intros (p1 & q1 & ->) (p2 & q2 & ->). exists (p2 ++ p1), (q1 ++ q2).
  by rewrite !append_assoc.
Qed.

Lemma conflicts_mono toks hay1 hay2 :
  substring hay1 hay2 → conflicts toks hay1 `sublist_of` conflicts toks hay2.
Proof.
  intros Hsub. unfold conflicts. induction toks as [|t toks IH]; [done |].
  rewrite !filter_cons.
  destruct (decide (truthy t && contains t hay1)) as [H1|H1].
  - rewrite decide_True; [by constructor |].
    apply andb_True in H1 as [Ht Hc]. apply andb_True. split; [done |].
    apply Is_true_true, contains_spec. apply Is_true_true, contains_spec in Hc.
    by eapply substring_trans.
  - destruct (decide _); [by constructor | done].
Qed.

Lemma conflicts_app t1 t2 hay :
  conflicts (t1 ++ t2) hay = (conflicts t1 hay ++ conflicts t2 hay)%list.
Proof. apply filter_app. Qed.

End Fields.

(** ** More on the verdict *)

Section VerdictMore.
Import PyStr PyStrFacts PyStrSplit.

Lemma call_verdict d u a h s pg :
  d !! "ingredients" = Some (VStr s) →
  allergies u = Some a → health_conditions u = Some h →
  check_product_safety (call d u pg)
  = (Returned (Some (verdict_for d a h s)), call d u pg).
Proof.
  intros Hi Ha Hh. eapply check_verdict; try done.
  - apply dict_truthy_spec. intros ->. by rewrite lookup_empty in Hi.
  - unfold dict_get. by rewrite Hi.
Qed.

(** X1. The verdict does not depend on letter case: two calls whose user
    fields and ingredient texts are equal once lower-cased report the same
    conflicts and the same [is_safe]. *)
Theorem verdict_ignores_case d1 d2 u1 u2 a1 a2 h1 h2 s1 s2 pg1 pg2 :
  d1 !! "ingredients" = Some (VStr s1) → d2 !! "ingredients" = Some (VStr s2) →
  allergies u1 = Some a1 → allergies u2 = Some a2 →
  health_conditions u1 = Some h1 → health_conditions u2 = Some h2 →
  lower a1 = lower a2 → lower h1 = lower h2 → lower s1 = lower s2 →
  ∃ v1 v2,
    check_product_safety (call d1 u1 pg1) = (Returned (Some v1), call d1 u1 pg1) ∧
    check_product_safety (call d2 u2 pg2) = (Returned (Some v2), call d2 u2 pg2) ∧
    conflicting_allergies v1 = conflicting_allergies v2 ∧
    conflicting_conditions v1 = conflicting_conditions v2 ∧
    is_safe v1 = is_safe v2.
Proof.
  intros Hi1 Hi2 Ha1 Ha2 Hh1 Hh2 Ha Hh Hs.
  exists (verdict_for d1 a1 h1 s1), (verdict_for d2 a2 h2 s2).
  split; [by apply call_verdict |]. split; [by apply call_verdict |].
  unfold verdict_for. simpl.
  rewrite <- (tokens_lower a1), <- (tokens_lower h1), Ha, Hh, Hs.
  by rewrite !tokens_lower.
Qed.

Lemma verdict_ignores_case_witness :
  ∃ v1 v2,
    check_product_safety
      (call (mk_product "Cake" "Egg, sugar, MILK powder")
            (mk_user (Some "milk, egg") (Some "")) [])
    = (Returned (Some v1),
       call (mk_product "Cake" "Egg, sugar, MILK powder")
            (mk_user (Some "milk, egg") (Some "")) []) ∧
    check_product_safety
      (call (mk_product "cake" "EGG, Sugar, milk powder")
            (mk_user (Some "MILK, Egg") (Some "")) [])
    = (Returned (Some v2),
       call (mk_product "cake" "EGG, Sugar, milk powder")
            (mk_user (Some "MILK, Egg") (Some "")) []) ∧
    conflicting_allergies v1 = conflicting_allergies v2 ∧
    conflicting_conditions v1 = conflicting_conditions v2 ∧
    is_safe v1 = is_safe v2.
Proof.
  apply (verdict_ignores_case _ _ _ _ "milk, egg" "MILK, Egg" "" ""
           "Egg, sugar, MILK powder" "EGG, Sugar, milk powder");
    reflexivity.
Defined.

(** X2. A longer ingredient text never clears a conflict: when the
    lower-cased text of one product occurs inside that of another, every
    conflict of the first is a conflict of the second, in the same order, and
    the first is safe whenever the second is. *)
Theorem more_ingredients_more_conflicts d1 d2 u a h s1 s2 pg1 pg2 :
  d1 !! "ingredients" = Some (VStr s1) → d2 !! "ingredients" = Some (VStr s2) →
  allergies u = Some a → health_conditions u = Some h →
  substring (lower s1) (lower s2) →
  ∃ v1 v2,
    check_product_safety (call d1 u pg1) = (Returned (Some v1), call d1 u pg1) ∧
    check_product_safety (call d2 u pg2) = (Returned (Some v2), call d2 u pg2) ∧
    conflicting_allergies v1 `sublist_of` conflicting_allergies v2 ∧
    conflicting_conditions v1 `sublist_of` conflicting_conditions v2 ∧
    (is_safe v2 = true → is_safe v1 = true).
Proof.
  intros Hi1 Hi2 Ha Hh Hsub.
  exists (verdict_for d1 a h s1), (verdict_for d2 a h s2).
  split; [by apply call_verdict |]. split; [by apply call_verdict |].
  unfold verdict_for. simpl.
  pose proof (conflicts_mono (tokens a) _ _ Hsub) as Hca.
  pose proof (conflicts_mono (tokens h) _ _ Hsub) as Hcc.
  split_and!; [done | done |].
  intros [E1 E2]%not_or_spec. rewrite E1 in Hca. rewrite E2 in Hcc.
  apply sublist_nil_r in Hca, Hcc. apply not_or_spec. by rewrite Hca, Hcc.
Qed.

Lemma more_ingredients_more_conflicts_witness :
  ∃ v1 v2,
    check_product_safety
      (call (mk_product "Oil" "peanut oil")
            (mk_user (Some "Peanut, Gluten") (Some "")) [])
    = (Returned (Some v1),
       call (mk_product "Oil" "peanut oil")
            (mk_user (Some "Peanut, Gluten") (Some "")) []) ∧
    check_product_safety
      (call (mk_product "Cookies" "Wheat flour, Peanut oil, gluten")
            (mk_user (Some "Peanut, Gluten") (Some "")) [])
    = (Returned (Some v2),
       call (mk_product "Cookies" "Wheat flour, Peanut oil, gluten")
            (mk_user (Some "Peanut, Gluten") (Some "")) []) ∧
    conflicting_allergies v1 `sublist_of` conflicting_allergies v2 ∧
    conflicting_conditions v1 `sublist_of` conflicting_conditions v2 ∧
    (is_safe v2 = true → is_safe v1 = true).
Proof.
  apply (more_ingredients_more_conflicts _ _ _ "Peanut, Gluten" ""
           "peanut oil" "Wheat flour, Peanut oil, gluten");
    try reflexivity.
  by exists "wheat flour, ", ", gluten".
Defined.

(** X3. Entries add up: for a user whose fields are two fields joined by a
    comma, each conflict list is the list for the first part followed by the
    list for the second, and the verdict is safe exactly when both parts
    are. *)
Theorem conflicts_of_joined_fields d u ua ub a b h k s pg :
  d !! "ingredients" = Some (VStr s) →
  allergies u = Some (a ++ "," ++ b) → health_conditions u = Some (h ++ "," ++ k) →
  allergies ua = Some a → health_conditions ua = Some h →
  allergies ub = Some b → health_conditions ub = Some k →
  ∃ v va vb,
    check_product_safety (call d u pg) = (Returned (Some v), call d u pg) ∧
    check_product_safety (call d ua pg) = (Returned (Some va), call d ua pg) ∧
    check_product_safety (call d ub pg) = (Returned (Some vb), call d ub pg) ∧
    conflicting_allergies v
    = (conflicting_allergies va ++ conflicting_allergies vb)%list ∧
    conflicting_conditions v
    = (conflicting_conditions va ++ conflicting_conditions vb)%list ∧
    is_safe v = is_safe va && is_safe vb.
Proof.
  intros Hi Ha Hh Haa Hha Hab Hhb.
  exists (verdict_for d (a ++ "," ++ b) (h ++ "," ++ k) s),
         (verdict_for d a h s), (verdict_for d b k s).
  split_and!; try by apply call_verdict.
  - unfold verdict_for. simpl.
    change (a ++ "," ++ b) with (a ++ String "," b).
    by rewrite tokens_app, conflicts_app.
  - unfold verdict_for. simpl.
    change (h ++ "," ++ k) with (h ++ String "," k).
    by rewrite tokens_app, conflicts_app.
  - unfold verdict_for. simpl.
    change (a ++ "," ++ b) with (a ++ String "," b).
    change (h ++ "," ++ k) with (h ++ String "," k).
    rewrite !tokens_app, !conflicts_app.
    destruct (conflicts (tokens a) (lower s)), (conflicts (tokens b) (lower s)),
      (conflicts (tokens h) (lower s)), (conflicts (tokens k) (lower s)); done.
Qed.

Lemma conflicts_of_joined_fields_witness :
  ∃ v va vb,
    check_product_safety
      (call (mk_product "Cake" "Egg, sugar, MILK powder")
            (mk_user (Some "milk, soy,egg") (Some "asthma,")) [])
    = (Returned (Some v),
       call (mk_product "Cake" "Egg, sugar, MILK powder")
            (mk_user (Some "milk, soy,egg") (Some "asthma,")) []) ∧
    check_product_safety
      (call (mk_product "Cake" "Egg, sugar, MILK powder")
            (mk_user (Some "milk, soy") (Some "asthma")) [])
    = (Returned (Some va),
       call (mk_product "Cake" "Egg, sugar, MILK powder")
            (mk_user (Some "milk, soy") (Some "asthma")) []) ∧
    check_product_safety
      (call (mk_product "Cake" "Egg, sugar, MILK powder")
            (mk_user (Some "egg") (Some "")) [])
    = (Returned (Some vb),
       call (mk_product "Cake" "Egg, sugar, MILK powder")
            (mk_user (Some "egg") (Some "")) []) ∧
    conflicting_allergies v
    = (conflicting_allergies va ++ conflicting_allergies vb)%list ∧
    conflicting_conditions v
    = (conflicting_conditions va ++ conflicting_conditions vb)%list ∧
    is_safe v = is_safe va && is_safe vb.
Proof.
  apply (conflicts_of_joined_fields _ _ _ _ "milk, soy" "egg" "asthma" ""
           "Egg, sugar, MILK powder"); reflexivity.
Defined.

End VerdictMore.

(** ** The profile pages *)

Section ProfileFacts.
Import PyStr PyStrFacts PyStrSplit.

Variable checkbox : string → nat → string → bool → bool.

Lemma forallb_true_Forall {A} (f : A → bool) l :
  forallb f l = true → Forall (λ x, f x = true) l.
Proof.
  induction l as [|x l IH]; simpl; [done |].
  intros [? ?]%andb_true_iff. constructor; auto.
Qed.

Lemma filter_ext_in {A} (P Q : A → Prop)
    `{!∀ x, Decision (P x)} `{!∀ x, Decision (Q x)} (l : list A) :
  (∀ x, x ∈ l → P x ↔ Q x) → filter P l = filter Q l.
Proof.
  induction l as [|x l IH]; intros Hiff; [done |].
  rewrite !filter_cons, IH by (intros y Hy; apply Hiff; by right).
  assert (P x ↔ Q x) as Hx by (apply Hiff; by left).
  destruct (decide (P x)), (decide (Q x)); tauto || done.
Qed.

Lemma suggested_allergies_clean :
  Forall (λ x, clean x = true) SUGGESTED_ALLERGIES.
Proof. apply forallb_true_Forall. vm_compute. reflexivity. Qed.

Lemma suggested_health_conditions_clean :
  Forall (λ x, clean x = true) SUGGESTED_HEALTH_CONDITIONS.
Proof. apply forallb_true_Forall. vm_compute. reflexivity. Qed.

Lemma ticked_from_Forall (P : string → Prop) key i current suggested :
  Forall P suggested → Forall P (ticked_from checkbox key i current suggested).
Proof.
  intros H. revert i. induction H as [|s rest Hs _ IH]; intros i; simpl; [done |].
  destruct (checkbox key i s _); [by constructor | done].
Qed.

Lemma ticked_from_sublist key i current suggested :
  ticked_from checkbox key i current suggested `sublist_of` suggested.
Proof.
  revert i. induction suggested as [|s rest IH]; intros i; simpl; [done |].
  destruct (checkbox key i s _); by constructor.
Qed.

Lemma ticked_from_untouched key i current suggested :
  (∀ key i label v, checkbox key i label v = v) →
  ticked_from checkbox key i current suggested
  = filter (λ s, s ∈ current) suggested.
Proof.
  intros Hcb. revert i. induction suggested as [|s rest IH]; intros i; simpl; [done |].
  rewrite Hcb, filter_cons, IH.
  case_bool_decide; [by rewrite decide_True | by rewrite decide_False].
Qed.

Lemma bind_shown_tokens_clean l :
  Forall (λ x, clean x = true) l → l ≫= shown_tokens = l.
Proof.
  induction 1 as [|x l Hx _ IH]; [done |].
  rewrite bind_cons, IH. by rewrite (shown_tokens_clean x Hx).
Qed.

Lemma truthy_clean x : clean x = true → truthy x = true.
Proof. unfold clean. by intros [[? _]%andb_true_iff _]%andb_true_iff. Qed.

Lemma shown_tokens_custom custom :
  custom = "" ∨ clean custom = true →
  shown_tokens custom = if truthy custom then [custom] else [].
Proof.
  intros [-> | Hc]; [done |]. by rewrite (truthy_clean _ Hc), shown_tokens_clean.
Qed.

(** X4. What is saved is what is read back, entry by entry: the stored field
    shows the entries of each selected item followed by those of the custom
    text, so an item holding a comma comes back as several entries and a
    blank one as none. *)
Theorem saved_field_reads_back selected custom :
  shown_tokens (saved_field selected custom)
  = ((selected ≫= shown_tokens) ++ shown_tokens custom)%list.
Proof.
  unfold saved_field. destruct custom as [|c r]; simpl.
  - by rewrite shown_tokens_join, app_nil_r.
  - by rewrite shown_tokens_join, bind_app, bind_singleton.
Qed.

(** X5. Round trip of the update page: with fields that are strings and
    custom texts that are empty or clean, Save Changes stores fields that read
    back as the ticked suggestions followed by the custom entry; the other
    columns of the row are untouched. *)
Theorem save_changes_reads_back u a h custom_allergy custom_health :
  allergies u = Some a → health_conditions u = Some h →
  custom_allergy = "" ∨ clean custom_allergy = true →
  custom_health = "" ∨ clean custom_health = true →
  ∃ u' a' h',
    save_changes checkbox u custom_allergy custom_health = Returned u' ∧
    (id u', username u', name u', mobile u', age u')
    = (id u, username u, name u, mobile u, age u) ∧
    allergies u' = Some a' ∧ health_conditions u' = Some h' ∧
    shown_tokens a'
    = (ticked_from checkbox "update_allergy" 0 (shown_tokens a) SUGGESTED_ALLERGIES
       ++ if truthy custom_allergy then [custom_allergy] else [])%list ∧
    shown_tokens h'
    = (ticked_from checkbox "update_health_condition" 0 (shown_tokens h)
                   SUGGESTED_HEALTH_CONDITIONS
       ++ if truthy custom_health then [custom_health] else [])%list.
Proof.
  intros Ha Hh Hca Hch. unfold save_changes. rewrite Ha, Hh. cbv zeta.
  pose proof (ticked_from_Forall _ "update_allergy" 0 (shown_tokens a) _
                suggested_allergies_clean) as Hta.
  pose proof (ticked_from_Forall _ "update_health_condition" 0 (shown_tokens h) _
                suggested_health_conditions_clean) as Hth.
  revert Hta Hth.
  generalize (ticked_from checkbox "update_allergy" 0 (shown_tokens a)
                SUGGESTED_ALLERGIES).
  generalize (ticked_from checkbox "update_health_condition" 0 (shown_tokens h)
                SUGGESTED_HEALTH_CONDITIONS).
  intros sh sa Hta Hth.
  exists {| id := id u; username := username u; name := name u;
            mobile := mobile u; age := age u;
            allergies := Some (saved_field sa custom_allergy);
            health_conditions := Some (saved_field sh custom_health) |},
         (saved_field sa custom_allergy), (saved_field sh custom_health).
  split_and!; try reflexivity.
  - rewrite saved_field_reads_back, (shown_tokens_custom _ Hca).
    by rewrite bind_shown_tokens_clean.
  - rewrite saved_field_reads_back, (shown_tokens_custom _ Hch).
    by rewrite bind_shown_tokens_clean.
Qed.

(** X6. Saving without touching the form keeps the suggestions and drops the
    rest: when every tick box is left at its default and the custom texts are
    empty, the stored fields read back as the suggestions that were among the
    entries before, in the order of the suggestion lists, and a second such
    save changes nothing. *)
Theorem untouched_save u a h :
  (∀ key i label v, checkbox key i label v = v) →
  allergies u = Some a → health_conditions u = Some h →
  ∃ u' a' h',
    save_changes checkbox u "" "" = Returned u' ∧
    allergies u' = Some a' ∧ health_conditions u' = Some h' ∧
    shown_tokens a' = filter (λ x, x ∈ shown_tokens a) SUGGESTED_ALLERGIES ∧
    shown_tokens h' = filter (λ x, x ∈ shown_tokens h) SUGGESTED_HEALTH_CONDITIONS ∧
    save_changes checkbox u' "" "" = Returned u'.
Proof.
  intros Hcb Ha Hh.
  assert (∀ cur S : list string,
            filter (λ x : string, x ∈ filter (λ x : string, x ∈ cur) S) S
            = filter (λ x : string, x ∈ cur) S) as Hidem.
  { intros cur S. apply filter_ext_in.
    intros x Hx. rewrite list_elem_of_filter. tauto. }
  assert (∀ cur S : list string, Forall (λ x, clean x = true) S →
            shown_tokens (saved_field (filter (λ x : string, x ∈ cur) S) "")
            = filter (λ x : string, x ∈ cur) S) as Hback.
  { intros cur S HS. rewrite saved_field_reads_back, app_nil_r.
    apply bind_shown_tokens_clean. apply Forall_forall.
    intros x [_ Hx]%list_elem_of_filter. revert x Hx. by apply Forall_forall. }
  unfold save_changes. rewrite Ha, Hh. cbv zeta.
  rewrite !ticked_from_untouched by done.
  eexists _, _, _. split; [reflexivity |].
  cbn [allergies health_conditions id username name mobile age].
  split; [reflexivity |]. split; [reflexivity |].
  rewrite !Hback by (apply suggested_allergies_clean
                     || apply suggested_health_conditions_clean).
  split; [reflexivity |]. split; [reflexivity |].
  rewrite !ticked_from_untouched by done. by rewrite !Hidem.
Qed.

(** X7. From the form to the verdict: after Save Changes, the check reports
    as allergy conflicts exactly the lower-cased saved entries (ticked
    suggestions and custom entry) that occur in the lower-cased ingredient
    text; likewise for the conditions. *)
Theorem saved_entries_are_matched u a h custom_allergy custom_health d s pg :
  allergies u = Some a → health_conditions u = Some h →
  custom_allergy = "" ∨ clean custom_allergy = true →
  custom_health = "" ∨ clean custom_health = true →
  d !! "ingredients" = Some (VStr s) →
  ∃ u' v,
    save_changes checkbox u custom_allergy custom_health = Returned u' ∧
    check_product_safety (call d u' pg) = (Returned (Some v), call d u' pg) ∧
    (∀ t, t ∈ conflicting_allergies v ↔
       ∃ x, x ∈ (ticked_from checkbox "update_allergy" 0 (shown_tokens a)
                             SUGGESTED_ALLERGIES
                 ++ if truthy custom_allergy then [custom_allergy] else [])%list
            ∧ t = lower x ∧ substring t (lower s)) ∧
    (∀ t, t ∈ conflicting_conditions v ↔
       ∃ x, x ∈ (ticked_from checkbox "update_health_condition" 0 (shown_tokens h)
                             SUGGESTED_HEALTH_CONDITIONS
                 ++ if truthy custom_health then [custom_health] else [])%list
            ∧ t = lower x ∧ substring t (lower s)).
Proof.
  intros Ha Hh Hca Hch Hi.
  destruct (save_changes_reads_back u a h _ _ Ha Hh Hca Hch)
    as (u' & a' & h' & Hsave & _ & Ha' & Hh' & Hsa & Hsh).
  exists u', (verdict_for d a' h' s).
  split; [done |]. split; [by apply call_verdict |].
  assert (∀ l : list string, Forall (λ x, clean x = true) l →
            ∀ t, t ∈ conflicts (lower <$> l) (lower s)
                 ↔ ∃ x, x ∈ l ∧ t = lower x ∧ substring t (lower s)) as Hmatch.
  { intros l Hl t. rewrite conflicts_spec, list_elem_of_fmap. split.
    - intros [(x & -> & Hx) [_ Hsub]]. eauto.
    - intros (x & Hx & -> & Hsub). split_and!; [eauto | | done].
      apply truthy_true. rewrite truthy_lower. apply truthy_clean.
      clear Hsub. revert x Hx. by apply Forall_forall. }
  assert (∀ c, c = "" ∨ clean c = true →
               Forall (λ x, clean x = true) (if truthy c then [c] else []))
    as Hcustom.
  { intros c [-> | Hc]; [constructor |]. rewrite (truthy_clean _ Hc).
    by repeat constructor. }
  unfold verdict_for. cbn [conflicting_allergies conflicting_conditions].
  rewrite !tokens_shown, Hsa, Hsh. split.
  - apply Hmatch, Forall_app. split; [|by apply Hcustom].
    apply ticked_from_Forall, suggested_allergies_clean.
  - apply Hmatch, Forall_app. split; [|by apply Hcustom].
    apply ticked_from_Forall, suggested_health_conditions_clean.
Qed.

End ProfileFacts.

Lemma save_changes_reads_back_witness :
  ∃ u' a' h',
    save_changes eggs_form (mk_user (Some "Peanuts, kiwi") (Some "Asthma"))
                 "Kiwi fruit" ""
    = Returned u' ∧
    (id u', username u', name u', mobile u', age u')
    = (id (mk_user (Some "Peanuts, kiwi") (Some "Asthma")),
       username (mk_user (Some "Peanuts, kiwi") (Some "Asthma")),
       name (mk_user (Some "Peanuts, kiwi") (Some "Asthma")),
       mobile (mk_user (Some "Peanuts, kiwi") (Some "Asthma")),
       age (mk_user (Some "Peanuts, kiwi") (Some "Asthma"))) ∧
    allergies u' = Some a' ∧ health_conditions u' = Some h' ∧
    shown_tokens a'
    = (ticked_from eggs_form "update_allergy" 0 (shown_tokens "Peanuts, kiwi")
                   SUGGESTED_ALLERGIES
       ++ if PyStr.truthy "Kiwi fruit" then ["Kiwi fruit"] else [])%list ∧
    shown_tokens h'
    = (ticked_from eggs_form "update_health_condition" 0 (shown_tokens "Asthma")
                   SUGGESTED_HEALTH_CONDITIONS
       ++ if PyStr.truthy "" then [""] else [])%list.
Proof.
  apply (save_changes_reads_back eggs_form
           (mk_user (Some "Peanuts, kiwi") (Some "Asthma"))
           "Peanuts, kiwi" "Asthma" "Kiwi fruit" "");
    try reflexivity.
  - right. vm_compute. reflexivity.
  - left. reflexivity.
Defined.

Lemma untouched_save_witness :
  ∃ u' a' h',
    save_changes untouched_form (mk_user (Some "Peanuts, kiwi") (Some "Asthma")) "" ""
    = Returned u' ∧
    allergies u' = Some a' ∧ health_conditions u' = Some h' ∧
    shown_tokens a'
    = filter (λ x, x ∈ shown_tokens "Peanuts, kiwi") SUGGESTED_ALLERGIES ∧
    shown_tokens h'
    = filter (λ x, x ∈ shown_tokens "Asthma") SUGGESTED_HEALTH_CONDITIONS ∧
    save_changes untouched_form u' "" "" = Returned u'.
Proof.
  apply (untouched_save untouched_form
           (mk_user (Some "Peanuts, kiwi") (Some "Asthma"))
           "Peanuts, kiwi" "Asthma"); reflexivity.
Defined.

Lemma saved_entries_are_matched_witness :
  ∃ u' v,
    save_changes eggs_form (mk_user (Some "Peanuts, kiwi") (Some "Asthma"))
                 "Kiwi fruit" ""
    = Returned u' ∧
    check_product_safety
      (call (mk_product "Cake" "Eggs, sugar, kiwi fruit, peanut oil") u' [])
    = (Returned (Some v),
       call (mk_product "Cake" "Eggs, sugar, kiwi fruit, peanut oil") u' []) ∧
    (∀ t, t ∈ conflicting_allergies v ↔
       ∃ x, x ∈ (ticked_from eggs_form "update_allergy" 0
                             (shown_tokens "Peanuts, kiwi") SUGGESTED_ALLERGIES
                 ++ if PyStr.truthy "Kiwi fruit" then ["Kiwi fruit"] else [])%list
            ∧ t = PyStr.lower x
            ∧ substring t (PyStr.lower "Eggs, sugar, kiwi fruit, peanut oil")) ∧
    (∀ t, t ∈ conflicting_conditions v ↔
       ∃ x, x ∈ (ticked_from eggs_form "update_health_condition" 0
                             (shown_tokens "Asthma") SUGGESTED_HEALTH_CONDITIONS
                 ++ if PyStr.truthy "" then [""] else [])%list
            ∧ t = PyStr.lower x
            ∧ substring t (PyStr.lower "Eggs, sugar, kiwi fruit, peanut oil")).
Proof.
  apply (saved_entries_are_matched eggs_form
           (mk_user (Some "Peanuts, kiwi") (Some "Asthma"))
           "Peanuts, kiwi" "Asthma" "Kiwi fruit" ""
           (mk_product "Cake" "Eggs, sugar, kiwi fruit, peanut oil")
           "Eggs, sugar, kiwi fruit, peanut oil" []);
    try reflexivity.
  - right. vm_compute. reflexivity.
  - left. reflexivity.
Defined.

(** ** More on the product lookup *)

Ltac unfold_lookup :=
  unfold get_product_from_openfoodfacts, product_record, py_get, py_getitem,
    try_except, st_error, raise, mbind, M_bind, mret, M_ret.

Section LookupMore.

Variable http : string → M pyval.

(** X8. The failures the lookup reports.  An empty barcode is refused with a
    message; a [RequestException] or a [ValueError] of the request is caught
    and shown; a document without a product, or with a falsy one, gives
    [None] and no message at all.  In each case [None] is returned. *)
Theorem lookup_reports_failures barcode w :
  (barcode = "" →
     get_product_from_openfoodfacts http barcode w
     = (Returned None, shown "Barcode cannot be empty" w)) ∧
  (∀ msg w1, barcode ≠ "" →
     http (product_url barcode) w = (Raised (RequestException msg), w1) →
     get_product_from_openfoodfacts http barcode w
     = (Returned None, shown ("Failed to fetch product data: " ++ msg) w1)) ∧
  (∀ msg w1, barcode ≠ "" →
     http (product_url barcode) w = (Raised (ValueError msg), w1) →
     get_product_from_openfoodfacts http barcode w
     = (Returned None, shown ("Invalid product data received: " ++ msg) w1)) ∧
  (∀ dd w1, barcode ≠ "" →
     http (product_url barcode) w = (Returned (VDict dd), w1) →
     (dd !! "product" = None ∨ ∃ x, dd !! "product" = Some x ∧ truthy x = false) →
     get_product_from_openfoodfacts http barcode w = (Returned None, w1)).
Proof.
  split_and!.
  - intros ->. done.
  - intros msg w1 Hb%PyStrFacts.truthy_true Hhttp. unfold_lookup.
    rewrite Hb. cbn [negb]. unfold product_url in Hhttp. by rewrite Hhttp.
  - intros msg w1 Hb%PyStrFacts.truthy_true Hhttp. unfold_lookup.
    rewrite Hb. cbn [negb]. unfold product_url in Hhttp. by rewrite Hhttp.
  - intros dd w1 Hb%PyStrFacts.truthy_true Hhttp Hp. unfold_lookup.
    rewrite Hb. cbn [negb]. unfold product_url in Hhttp. rewrite Hhttp.
    unfold dict_get. destruct Hp as [-> | (x & -> & Hx)]; simpl; [done |].
    by rewrite Hx.
Qed.

Lemma lookup_run barcode w :
  barcode ≠ "" →
  get_product_from_openfoodfacts http barcode w
  = match http (product_url barcode) w with
    | (Returned (VDict dd), w1) =>
        match dd !! "product" with
        | Some x =>
            if truthy x then
              match x with
              | VDict product =>
                  (Returned (Some
                     (<["barcode" := VStr barcode]>
                      (<["title" := dict_get product "product_name"
                                      (VStr "No product title found")]>
                      (<["brand" := dict_get product "brands" (VStr "Unknown brand")]>
                      (<["description" := dict_get product "generic_name"
                                            (VStr "No description available")]>
                      (<["ingredients" :=
                           py_or (dict_get product "ingredients_text" (VStr ""))
                                 (VStr "")]>
                      (<["category" := dict_get product "categories"
                                         (VStr "Unknown category")]> ∅))))))), w1)
              | _ => (Raised (AttributeError (type_name x) "get"), w1)
              end
            else (Returned None, w1)
        | None => (Returned None, w1)
        end
    | (Returned data, w1) => (Raised (AttributeError (type_name data) "get"), w1)
    | (Raised (RequestException msg), w1) =>
        (Returned None, shown ("Failed to fetch product data: " ++ msg) w1)
    | (Raised (ValueError msg), w1) =>
        (Returned None, shown ("Invalid product data received: " ++ msg) w1)
    | (Raised e, w1) => (Raised e, w1)
    end.
Proof.
  intros Hb%PyStrFacts.truthy_true. unfold_lookup. rewrite Hb. cbn [negb].
  unfold product_url.
  destruct (http _ w) as [[data|e] w1]; [|by destruct e].
  destruct data as [| | | | | |dd]; try done.
  unfold dict_get. destruct (dd !! "product") as [x|] eqn:Hx; simpl; [|done].
  destruct (truthy x) eqn:Ht; simpl; [|done].
  destruct x; try done.
Qed.

(** X9. When the lookup raises.  An exception leaves the lookup exactly when
    the request raises something other than [RequestException] and
    [ValueError], or the document is not a dictionary, or its product is
    truthy and not a dictionary; the last two are [AttributeError]s for
    [get]. *)
Theorem lookup_raises barcode w e w1 :
  get_product_from_openfoodfacts http barcode w = (Raised e, w1) ↔
  barcode ≠ "" ∧
  ((http (product_url barcode) w = (Raised e, w1)
    ∧ (∀ msg, e ≠ RequestException msg) ∧ (∀ msg, e ≠ ValueError msg))
   ∨ (∃ data, http (product_url barcode) w = (Returned data, w1)
        ∧ (∀ dd, data ≠ VDict dd) ∧ e = AttributeError (type_name data) "get")
   ∨ (∃ dd x, http (product_url barcode) w = (Returned (VDict dd), w1)
        ∧ dd !! "product" = Some x ∧ truthy x = true
        ∧ (∀ product, x ≠ VDict product)
        ∧ e = AttributeError (type_name x) "get")).
Proof.
  destruct (decide (barcode = "")) as [-> | Hb].
  { split; [done | by intros [? _]]. }
  rewrite (lookup_run _ _ Hb).
  destruct (http _ w) as [[data|e0] w0].
  - destruct data as [| | | | | |dd];
      try (split;
           [ intros [= <- <-]; split; [done |]; right; left; eexists; by split_and!
           | intros [_ [(? & _) | [(data & [= <- <-] & _ & ->) |
                                    (dd & x & [= ] & _)]]]; done ]).
    destruct (dd !! "product") as [x|] eqn:Hx.
    + destruct (truthy x) eqn:Ht.
      * destruct x as [| | | | | |product];
          try (split;
               [ intros [= <- <-]; split; [done |]; right; right;
                 eexists _, _; by split_and!
               | intros [_ [(? & _) | [(data & [= <- <-] & Hn & _) |
                                        (dd' & x' & [= <- <-] & Hx' & _ & _ & ->)]]];
                 [done | by destruct (Hn dd) | by simplify_eq] ]).
        split; [done |].
        intros [_ [(? & _) | [(data & [= <- <-] & Hn & _) |
                               (dd' & x' & [= <- <-] & Hx' & _ & Hn & _)]]];
          [done | by destruct (Hn dd) | simplify_eq; by destruct (Hn product)].
      * split; [done |].
        intros [_ [(? & _) | [(data & [= <- <-] & Hn & _) |
                               (dd' & x' & [= <- <-] & Hx' & Ht' & _)]]];
          [done | by destruct (Hn dd) | simplify_eq; congruence].
    + split; [done |].
      intros [_ [(? & _) | [(data & [= <- <-] & Hn & _) |
                             (dd' & x' & [= <- <-] & Hx' & _)]]];
        [done | by destruct (Hn dd) | congruence].
  - destruct e0 as [ty attr|key|msg|msg|msg];
      try (split;
           [ intros [= <- <-]; split; [done |]; left; by split_and!
           | intros [_ [([= <- <-] & _) | [(data & [= ] & _) | (dd & x & [= ] & _)]]];
             done ]).
    + split; [done |].
      intros [_ [([= <- <-] & Hn & _) | [(data & [= ] & _) | (dd & x & [= ] & _)]]].
      by destruct (Hn msg).
    + split; [done |].
      intros [_ [([= <- <-] & _ & Hn) | [(data & [= ] & _) | (dd & x & [= ] & _)]]].
      by destruct (Hn msg).
Qed.

Lemma lookup_found_inv barcode w r w1 :
  get_product_from_openfoodfacts http barcode w = (Returned (Some r), w1) →
  ∃ dd product,
    barcode ≠ "" ∧
    http (product_url barcode) w = (Returned (VDict dd), w1) ∧
    dd !! "product" = Some (VDict product) ∧ product ≠ ∅ ∧
    r = <["barcode" := VStr barcode]>
        (<["title" := dict_get product "product_name" (VStr "No product title found")]>
        (<["brand" := dict_get product "brands" (VStr "Unknown brand")]>
        (<["description" :=
             dict_get product "generic_name" (VStr "No description available")]>
        (<["ingredients" :=
             py_or (dict_get product "ingredients_text" (VStr "")) (VStr "")]>
        (<["category" := dict_get product "categories" (VStr "Unknown category")]>
           ∅))))).
Proof.
  destruct (decide (barcode = "")) as [-> | Hb]; [done |].
  rewrite (lookup_run _ _ Hb).
  destruct (http _ w) as [[data|e0] w0]; [|by destruct e0].
  destruct data as [| | | | | |dd]; try done.
  destruct (dd !! "product") as [x|] eqn:Hx; [|done].
  destruct (truthy x) eqn:Ht; [|done].
  destruct x as [| | | | | |product]; try done.
  intros [= <- <-]. exists dd, product. split_and!; try done.
  by apply dict_truthy_spec.
Qed.

End LookupMore.

(** ** From the lookup to the verdict *)

Section Pipeline.

Variable http : string → M pyval.

(** X10. A product the lookup has found is never refused by the check as
    missing.  With a user whose fields are strings, the check gives a verdict
    that carries the product's title, brand and ingredients when the
    ingredients are a string; otherwise the ingredients are a truthy value
    that is not a string, and the check shows "Error checking product
    safety" and returns [None]. *)
Theorem found_product_is_checked barcode w w1 r u a h :
  get_product_from_openfoodfacts http barcode w = (Returned (Some r), w1) →
  allergies u = Some a → health_conditions u = Some h →
  r ≠ ∅ ∧
  ((∃ s v, r !! "ingredients" = Some (VStr s) ∧
           check_product_safety (call r u (page w1))
           = (Returned (Some v), call r u (page w1)) ∧
           Some (product_name v) = r !! "title" ∧
           Some (product_brand v) = r !! "brand" ∧
           product_ingredients v = VStr s)
   ∨ (∃ x, r !! "ingredients" = Some x ∧ truthy x = true ∧ (∀ s, x ≠ VStr s) ∧
           check_product_safety (call r u (page w1))
           = (Returned None,
              shown ("Error checking product safety: "
                     ++ exn_str (AttributeError (type_name x) "lower"))
                    (call r u (page w1))))).
Proof.
  intros (dd & product & Hb & Hhttp & Hdd & Hne & ->)%lookup_found_inv Ha Hh.
  set (r := <["barcode" := VStr barcode]> _).
  set (x := py_or (dict_get product "ingredients_text" (VStr "")) (VStr "")).
  assert (r ≠ ∅) as Hr.
  { intros Hempty. by apply (f_equal (λ m : dict, m !! "barcode")) in Hempty. }
  assert (r !! "ingredients" = Some x) as Hx by done.
  assert (r !! "title"
          = Some (dict_get product "product_name" (VStr "No product title found")))
    as Htitle by done.
  assert (r !! "brand" = Some (dict_get product "brands" (VStr "Unknown brand")))
    as Hbrand by done.
  assert ((∃ s, x = VStr s) ∨ (truthy x = true ∧ ∀ s, x ≠ VStr s)) as Hcases.
  { unfold x, py_or.
    destruct (truthy (dict_get product "ingredients_text" (VStr ""))) eqn:Ht;
      [| left; by eexists].
    destruct (dict_get product "ingredients_text" (VStr "")) eqn:Hg;
      try (right; split; [done | by intros ?]).
    left. by eexists. }
  clearbody r x. split; [done |].
  destruct Hcases as [[s ->] | [Ht Hn]].
  - left. exists s, (verdict_for r a h s).
    split; [done |]. split; [by apply call_verdict |].
    unfold verdict_for, dict_get. cbn [product_name product_brand product_ingredients].
    by rewrite Hx, Htitle, Hbrand.
  - right. exists x. split_and!; try done.
    apply dict_truthy_spec in Hr.
    unfold check_product_safety, the_product_info, the_user,
      user_tokens, py_lower, try_except, st_error, raise, mbind, M_bind, mret, M_ret.
    cbn [call product_info user page]. rewrite Hr, Ha, Hh.
    unfold dict_get. rewrite Hx. cbn [default].
    destruct x; try done. by destruct (Hn s).
Qed.

(** X11. A product without ingredient data is declared safe: when the record
    has no [ingredients_text], or a falsy one (null, an empty string), the
    lookup stores [""] and the check finds no conflict for any user. *)
Theorem unknown_ingredients_are_safe barcode w w1 dd product u a h pg :
  barcode ≠ "" →
  http (product_url barcode) w = (Returned (VDict dd), w1) →
  dd !! "product" = Some (VDict product) → product ≠ ∅ →
  (product !! "ingredients_text" = None
   ∨ ∃ x, product !! "ingredients_text" = Some x ∧ truthy x = false) →
  allergies u = Some a → health_conditions u = Some h →
  ∃ r v,
    get_product_from_openfoodfacts http barcode w = (Returned (Some r), w1) ∧
    check_product_safety (call r u pg) = (Returned (Some v), call r u pg) ∧
    is_safe v = true ∧
    conflicting_allergies v = [] ∧ conflicting_conditions v = [] ∧
    product_ingredients v = VStr "".
Proof.
  intros Hb Hhttp Hdd Hne Hmissing Ha Hh.
  eexists. exists (verdict_for
                     (<["barcode" := VStr barcode]>
                      (<["title" := dict_get product "product_name"
                                      (VStr "No product title found")]>
                      (<["brand" := dict_get product "brands" (VStr "Unknown brand")]>
                      (<["description" := dict_get product "generic_name"
                                            (VStr "No description available")]>
                      (<["ingredients" := VStr ""]>
                      (<["category" := dict_get product "categories"
                                         (VStr "Unknown category")]> ∅))))))
                     a h "").
  assert (py_or (dict_get product "ingredients_text" (VStr "")) (VStr "") = VStr "")
    as Hi.
  { unfold py_or, dict_get. destruct Hmissing as [-> | (x & -> & Hx)]; [done |].
    simpl. by rewrite Hx. }
  split; [erewrite lookup_found by done; by rewrite Hi |].
  split; [by apply call_verdict |].
  unfold verdict_for. cbn. by rewrite !conflicts_nil_hay.
Qed.

End Pipeline.

Lemma found_product_is_checked_witness :
  ∃ r,
    get_product_from_openfoodfacts (http_reply sparse_reply) "3017620422003"
      (mk_world None None)
    = (Returned (Some r), mk_world None None) ∧
    r ≠ ∅ ∧
    ((∃ s v, r !! "ingredients" = Some (VStr s) ∧
             check_product_safety
               (call r (mk_user (Some "egg") (Some "")) (page (mk_world None None)))
             = (Returned (Some v),
                call r (mk_user (Some "egg") (Some "")) (page (mk_world None None))) ∧
             Some (product_name v) = r !! "title" ∧
             Some (product_brand v) = r !! "brand" ∧
             product_ingredients v = VStr s)
     ∨ (∃ x, r !! "ingredients" = Some x ∧ truthy x = true ∧ (∀ s, x ≠ VStr s) ∧
             check_product_safety
               (call r (mk_user (Some "egg") (Some "")) (page (mk_world None None)))
             = (Returned None,
                shown ("Error checking product safety: "
                       ++ exn_str (AttributeError (type_name x) "lower"))
                      (call r (mk_user (Some "egg") (Some ""))
                            (page (mk_world None None)))))).
Proof.
  eexists. split; [apply lookup_found with (dd := <["status" := VInt 1]>
                     (<["product" := VDict sparse_product]> ∅))
                     (product := sparse_product); try done;
                   apply dict_truthy_spec; vm_compute; reflexivity |].
  apply (found_product_is_checked (http_reply sparse_reply) "3017620422003"
           (mk_world None None) (mk_world None None) _
           (mk_user (Some "egg") (Some "")) "egg" ""); reflexivity.
Defined.

Lemma unknown_ingredients_are_safe_witness :
  ∃ r v,
    get_product_from_openfoodfacts (http_reply sparse_reply) "3017620422003"
      (mk_world None None)
    = (Returned (Some r), mk_world None None) ∧
    check_product_safety (call r (mk_user (Some "egg") (Some "")) [])
    = (Returned (Some v), call r (mk_user (Some "egg") (Some "")) []) ∧
    is_safe v = true ∧
    conflicting_allergies v = [] ∧ conflicting_conditions v = [] ∧
    product_ingredients v = VStr "".
Proof.
  apply (unknown_ingredients_are_safe (http_reply sparse_reply) "3017620422003"
           (mk_world None None) (mk_world None None)
           (<["status" := VInt 1]> (<["product" := VDict sparse_product]> ∅))
           sparse_product (mk_user (Some "egg") (Some "")) "egg" "" []);
    try reflexivity.
  - discriminate.
  - apply dict_truthy_spec. vm_compute. reflexivity.
  - right. exists (VList []). split; reflexivity.
Defined.

(** ** The session *)

#[local] Set Warnings "-clear-no-such-hyp".

Section Session.

Lemma page_guard_passes db warning s u :
  page_guard db warning s = (s, [], Some u) → logged_in s = true.
Proof.
  unfold page_guard. destruct (logged_in s); [done |]. simpl. by intros [= _].
Qed.

Lemma fresh_session_ok : session_ok fresh_session.
Proof.
  unfold session_ok, fresh_session. simpl. split_and!.
  - split; [done | by intros [? ?]].
  - rewrite !elem_of_cons, elem_of_nil. naive_solver.
  - rewrite !elem_of_cons. by left.
Qed.

Lemma step_session_ok s s' : session_ok s → step s s' → session_ok s'.
Proof.
  intros (Hlog & Hprot & Hpage) Hstep. unfold session_ok.
  destruct Hstep as [s page Hin | s Hl | db number s Hp | s Hp | s Hp
                    | db warning s Hp | db warning s u page Hp Hg Hin
                    | db warning s u Hp Hg]; simpl.
  - split; [done |]. destruct (logged_in s); revert Hin;
      rewrite !elem_of_cons, !elem_of_nil; naive_solver.
  - split_and!; [split; [done | by intros [? ?]] | | ];
      rewrite !elem_of_cons, ?elem_of_nil; naive_solver.
  - unfold login_click. destruct (negb _); [done |].
    destruct (query_by_mobile db number) as [u|]; [|done]. simpl. split_and!.
    + split; [by eexists | done].
    + done.
    + rewrite !elem_of_cons. naive_solver.
  - split; [done |]. rewrite !elem_of_cons, !elem_of_nil. naive_solver.
  - split; [done |]. rewrite !elem_of_cons, !elem_of_nil. naive_solver.
  - unfold page_guard. destruct (logged_in s) eqn:Hl; simpl.
    + destruct (user_mobile s ≫= query_by_mobile db); simpl.
      * by rewrite Hl.
      * split_and!; [split; [done | by intros [? ?]] | | ];
          rewrite !elem_of_cons, ?elem_of_nil; naive_solver.
    + rewrite Hl. split; [done |]. rewrite !elem_of_cons, !elem_of_nil. naive_solver.
  - apply page_guard_passes in Hg. split; [done |]. split; [done |].
    revert Hin. rewrite !elem_of_cons, !elem_of_nil. naive_solver.
  - apply page_guard_passes in Hg. split; [done |]. split; [done |].
    rewrite !elem_of_cons. naive_solver.
Qed.

(** X12. What the session keeps.  In every session reached from a fresh one
    by runs of the script, [logged_in] is set exactly when [user_mobile] is,
    the current page is one of the five pages, and a page for logged-in users
    is current only when the session is logged in; so the head of such a page
    never sends the visitor back with its "Please log in" warning. *)
Theorem session_invariant s :
  rtc step fresh_session s →
  (logged_in s = true ↔ is_Some (user_mobile s)) ∧
  current_page s ∈ ["login"; "register"; "profile"; "update_profile"; "scan"] ∧
  (current_page s ∈ ["profile"; "update_profile"; "scan"] →
   logged_in s = true ∧
   ∀ db warning, (page_guard db warning s).1.2 ≠ [Warning warning]).
Proof.
  intros Hreach.
  assert (session_ok s) as (Hlog & Hprot & Hpage).
  { revert s Hreach. apply (rtc_ind_r session_ok fresh_session).
    - apply fresh_session_ok.
    - intros y z _ Hstep IH. by eapply step_session_ok. }
  split_and!; try done. intros Hl%Hprot. split; [done |].
  intros db warning. unfold page_guard. rewrite Hl. simpl.
  by destruct (user_mobile s ≫= query_by_mobile db).
Qed.

(** X15. Logging in.  From a session that is not logged in, the Login button
    logs in exactly when the number typed is not empty and some row of the
    table has it as its mobile; the session then carries that very number and
    shows the profile page.  Otherwise the session is left as it was. *)
Theorem login_click_spec db number s :
  logged_in s = false →
  (logged_in (login_click db number s).1 = true
   ↔ number ≠ "" ∧ ∃ u, u ∈ db ∧ mobile u = number) ∧
  (logged_in (login_click db number s).1 = true →
   user_mobile (login_click db number s).1 = Some number ∧
   current_page (login_click db number s).1 = "profile") ∧
  (logged_in (login_click db number s).1 = false → (login_click db number s).1 = s).
Proof.
  intros Hs. unfold login_click, query_by_mobile.
  destruct number as [|c r]; simpl.
  { rewrite Hs. split_and!; [split; [done | by intros [? _]] | done | done]. }
  destruct (list_find _ db) as [[i u]|] eqn:Hfind; simpl.
  - apply list_find_Some in Hfind as (Hi & Hm & _).
    split_and!; [| by rewrite Hm | done].
    split; [|done]. intros _. split; [done |]. exists u. split; [|done].
    by eapply list_elem_of_lookup_2.
  - rewrite Hs. split_and!; [| done | done]. split; [done |].
    intros [_ (u & Hu & Hm)]. apply list_find_None in Hfind.
    rewrite Forall_forall in Hfind. by destruct (Hfind u Hu).
Qed.

End Session.

Lemma login_click_spec_witness :
  (logged_in (login_click one_user_db "5550100" fresh_session).1 = true
   ↔ "5550100" ≠ "" ∧ ∃ u, u ∈ one_user_db ∧ mobile u = "5550100") ∧
  (logged_in (login_click one_user_db "5550100" fresh_session).1 = true →
   user_mobile (login_click one_user_db "5550100" fresh_session).1 = Some "5550100" ∧
   current_page (login_click one_user_db "5550100" fresh_session).1 = "profile") ∧
  (logged_in (login_click one_user_db "5550100" fresh_session).1 = false →
   (login_click one_user_db "5550100" fresh_session).1 = fresh_session).
Proof. apply (login_click_spec one_user_db "5550100" fresh_session). reflexivity. Defined.

Lemma session_invariant_witness :
  (logged_in logged_in_session = true ↔ is_Some (user_mobile logged_in_session)) ∧
  current_page logged_in_session
    ∈ ["login"; "register"; "profile"; "update_profile"; "scan"] ∧
  (current_page logged_in_session ∈ ["profile"; "update_profile"; "scan"] →
   logged_in logged_in_session = true ∧
   ∀ db warning, (page_guard db warning logged_in_session).1.2 ≠ [Warning warning]).
Proof.
  apply (session_invariant logged_in_session).
  apply rtc_once. apply (step_login one_user_db "5550100" fresh_session). reflexivity.
Defined.

(** ** The barcode reader *)

Section BarcodeFacts.

Variable utf8 : list Byte.byte → option string.
Variable scan : M (list Decoded).

Lemma head_omap {A B} (f : A → option B) (l : list A) (y : B) :
  head (omap f l) = Some y ↔
  ∃ pre b post, l = (pre ++ b :: post)%list ∧ Forall (λ x, f x = None) pre ∧ f b = Some y.
Proof.
  induction l as [|x l IH]; simpl.
  - split; [done |]. intros (pre & b & post & Hl & _). by destruct pre.
  - destruct (f x) as [z|] eqn:Hx; simpl.
    + split.
      * intros [= ->]. exists [], x, l. by split_and!.
      * intros (pre & b & post & Hl & Hpre & Hb). destruct pre as [|p pre].
        -- injection Hl as -> ->. congruence.
        -- injection Hl as -> ->. inversion Hpre; congruence.
    + rewrite IH. split.
      * intros (pre & b & post & -> & Hpre & Hb).
        exists (x :: pre), b, post. split_and!; [done | by constructor | done].
      * intros (pre & b & post & Hl & Hpre & Hb). destruct pre as [|p pre].
        -- injection Hl as -> ->. congruence.
        -- injection Hl as -> ->. inversion Hpre; subst.
           by exists pre, b, post.
Qed.

(** X13. The barcode the scan page goes on with.  The reader never raises:
    an exception of the image library is shown and gives [None].  When
    symbols are found, the first barcode of the result is the first symbol,
    in the order found, whose payload decodes as UTF-8, with its type; a
    result of [None] means that no symbol was found. *)
Theorem read_barcode_first w :
  (∀ barcodes w1, scan w = (Returned barcodes, w1) →
     ∃ r, read_barcode utf8 scan w = (Returned r, w1) ∧
          (r = None ↔ barcodes = []) ∧
          ∀ s t, first_barcode r = Some (s, t) ↔
                 ∃ pre b post,
                   barcodes = (pre ++ b :: post)%list ∧
                   Forall (λ x, utf8 (data x) = None) pre ∧
                   utf8 (data b) = Some s ∧ type b = t) ∧
  (∀ e w1, scan w = (Raised e, w1) →
     read_barcode utf8 scan w
     = (Returned None, shown ("Error processing barcode: " ++ exn_str e) w1)).
Proof.
  split.
  - intros barcodes w1 Hscan.
    unfold read_barcode, try_except, mbind, M_bind, mret, M_ret. rewrite Hscan.
    destruct barcodes as [|b0 rest] eqn:Hbs.
    + exists None. split_and!; [done | done |]. intros s t. split; [done |].
      intros (pre & b & post & Hl & _). by destruct pre.
    + pose (f := λ barcode : Decoded,
                   utf8 (data barcode) ≫= λ barcode_data, Some (barcode_data, type barcode)).
      exists (Some (omap f (b0 :: rest))).
      split; [reflexivity |]. split; [done |]. intros s t.
      assert (∀ l, first_barcode (Some l) = head l) as -> by by intros [|? ?].
      rewrite (head_omap f). split.
      * intros (pre & b & post & Hl & Hpre & Hb). exists pre, b, post.
        unfold f in Hb. destruct (utf8 (data b)) as [s'|] eqn:Hd; [|done].
        injection Hb as -> <-. split_and!; try done.
        eapply Forall_impl; [exact Hpre |]. intros x Hx. unfold f in Hx.
        by destruct (utf8 (data x)).
      * intros (pre & b & post & Hl & Hpre & Hb & <-). exists pre, b, post.
        split_and!; [done | | unfold f; by rewrite Hb].
        eapply Forall_impl; [exact Hpre |]. intros x Hx. unfold f. by rewrite Hx.
  - intros e w1 Hscan.
    unfold read_barcode, try_except, mbind, M_bind, mret, M_ret. by rewrite Hscan.
Qed.

End BarcodeFacts.

Lemma read_barcode_first_witness :
  ∃ r, read_barcode ascii_decoder (mret two_symbols) (mk_world None None)
       = (Returned r, mk_world None None) ∧
       first_barcode r = Some ("3017620422003", "EAN13").
Proof.
  destruct (read_barcode_first ascii_decoder (mret two_symbols) (mk_world None None))
    as [Hfound _].
  destruct (Hfound two_symbols (mk_world None None) eq_refl) as (r & Hr & _ & Hfirst).
  exists r. split; [exact Hr |]. apply Hfirst.
  exists [ {| data := [Byte.xff; Byte.x30]; type := "CODE128" |} ],
         {| data := list_byte_of_string "3017620422003"; type := "EAN13" |}, [].
  split_and!; try reflexivity. by repeat constructor.
Defined.

(** ** Users for whom everything is safe *)

Section AlwaysSafe.
Import PyStr PyStrFacts.

Lemma append_empty_r (t : string) : t ++ "" = t.
Proof.
  induction t as [|c t IH]; [done |].
  change (String c (t ++ "") = String c t). by f_equal.
Qed.

Lemma contains_refl t : contains t t = true.
Proof. apply contains_spec. exists "", "". by rewrite append_empty_r. Qed.

Lemma token_conflicts t l :
  t ≠ "" → conflicts (t :: l) t ≠ [].
Proof.
  intros Ht%truthy_true. unfold conflicts. rewrite filter_cons.
  rewrite decide_True; [done |]. by rewrite Ht, contains_refl.
Qed.

(** X14. The users for whom every product is safe are those whose two fields
    are blank: the check declares every product with an ingredient text safe
    exactly when the allergies and the health conditions hold nothing but
    white space and commas. *)
Theorem always_safe_iff_blank u a h :
  allergies u = Some a → health_conditions u = Some h →
  (∀ d s pg, d !! "ingredients" = Some (VStr s) →
     ∃ v, check_product_safety (call d u pg) = (Returned (Some v), call d u pg) ∧
          is_safe v = true)
  ↔ blank a = true ∧ blank h = true.
Proof.
  intros Ha Hh. rewrite <- !tokens_nil. split.
  - intros Hsafe.
    assert (∀ t, is_safe (verdict_for {[ "ingredients" := VStr t ]} a h t) = true)
      as Hv.
    { intros t.
      destruct (Hsafe {[ "ingredients" := VStr t ]} t [] (lookup_singleton_eq _ _))
        as (v & Hrun & Hs).
      rewrite (call_verdict _ _ a h t) in Hrun
        by (done || apply lookup_singleton_eq).
      by injection Hrun as <-. }
    split.
    + destruct (tokens a) as [|t l] eqn:Hta; [done |]. exfalso.
      pose proof (Hv t) as Hs. unfold verdict_for in Hs. simpl in Hs.
      apply not_or_spec in Hs as [Hca _]. rewrite Hta in Hca.
      assert (t ∈ tokens a) as Ht by (rewrite Hta; by left).
      apply tokens_normal in Ht as (Hne & _ & Hlow). rewrite Hlow in Hca.
      by apply (token_conflicts t l).
    + destruct (tokens h) as [|t l] eqn:Hth; [done |]. exfalso.
      pose proof (Hv t) as Hs. unfold verdict_for in Hs. simpl in Hs.
      apply not_or_spec in Hs as [_ Hcc]. rewrite Hth in Hcc.
      assert (t ∈ tokens h) as Ht by (rewrite Hth; by left).
      apply tokens_normal in Ht as (Hne & _ & Hlow). rewrite Hlow in Hcc.
      by apply (token_conflicts t l).
  - intros [Hta Hth] d s pg Hi. exists (verdict_for d a h s).
    split; [by apply call_verdict |]. unfold verdict_for. simpl. by rewrite Hta, Hth.
Qed.

End AlwaysSafe.

Lemma always_safe_iff_blank_witness :
  (∀ d s pg, d !! "ingredients" = Some (VStr s) →
     ∃ v, check_product_safety (call d (mk_user (Some " , ,") (Some "")) pg)
          = (Returned (Some v), call d (mk_user (Some " , ,") (Some "")) pg) ∧
          is_safe v = true)
  ↔ blank " , ," = true ∧ blank "" = true.
Proof.
  apply (always_safe_iff_blank (mk_user (Some " , ,") (Some "")) " , ," "");
    reflexivity.
Defined.

Lemma lookup_reports_failures_witness :
  get_product_from_openfoodfacts http_down "" (mk_world None None)
  = (Returned None, shown "Barcode cannot be empty" (mk_world None None)) ∧
  get_product_from_openfoodfacts http_down "3017620422003" (mk_world None None)
  = (Returned None,
     shown "Failed to fetch product data: connection timed out"
           (mk_world None None)) ∧
  get_product_from_openfoodfacts (http_reply no_product_reply) "3017620422003"
    (mk_world None None)
  = (Returned None, mk_world None None).
Proof.
  split_and!.
  - destruct (lookup_reports_failures http_down "" (mk_world None None))
      as (Hempty & _). by apply Hempty.
  - destruct (lookup_reports_failures http_down "3017620422003" (mk_world None None))
      as (_ & Hdown & _). by apply Hdown.
  - destruct (lookup_reports_failures (http_reply no_product_reply) "3017620422003"
                (mk_world None None)) as (_ & _ & _ & Hnone).
    apply (Hnone (<["status" := VInt 0]> ∅)); [done | done | by left].
Defined.

Lemma lookup_raises_witness :
  get_product_from_openfoodfacts (http_reply list_reply) "3017620422003"
    (mk_world None None)
  = (Raised (AttributeError "list" "get"), mk_world None None).
Proof.
  apply (lookup_raises (http_reply list_reply) "3017620422003").
  split; [done |]. right. left. exists list_reply. by split_and!.
Defined.
